(** * col_agent: a Catalogue of Life query agent

    Shallow embedding of [src/col_agent.py] and the properties of its
    query interpretation, search parameters, result normalization,
    report and CSV export.

    The script talks to three outside parties: the schema-constrained
    generation service (through instructor), the search API (through
    requests) and the generation service again for the summary.  Their
    answers are the fields of a [World]; the script itself is a
    computation in a small monad that threads the console and the export
    file and may raise a Python exception. *)

From Stdlib Require Import ZArith List String Ascii Bool Lia DecimalString.
Import ListNotations.
Open Scope string_scope.
Open Scope Z_scope.
Set Warnings "-register-all".

(** ** Values that come out of a JSON document

    [json.loads] and [response.json()] yield [None], [bool], [int],
    [str], [list] and [dict].  A dict is kept as the list of its items
    in order; [dict_get] reads the first binding of a key.  Numbers of
    the payloads this script reads ([total], [limit], status codes) are
    integers; fractional numbers are not represented. *)

Inductive json : Type :=
| JNull
| JBool (b : bool)
| JNum (z : Z)
| JStr (s : string)
| JArr (l : list json)
| JObj (kvs : list (string * json)).

(** ** Python exceptions the script can meet *)

Inductive exn : Type :=
| KeyError (key : string)
| AttributeError (attr : string)
| TypeError
| IndexError
| ValidationError (model : string)
| JSONDecodeError
| ServiceError (what : string).

(** [Exc A]: an expression that either raises or yields a value. *)
Definition Exc (A : Type) : Type := (exn + A)%type.

Definition raise {A} (e : exn) : Exc A := inl e.
Definition ok {A} (a : A) : Exc A := inr a.

Definition ebind {A B} (c : Exc A) (k : A -> Exc B) : Exc B :=
  match c with
  | inl e => inl e
  | inr a => k a
  end.

Declare Scope exc_scope.
Delimit Scope exc_scope with exc.
Notation "x <- c ;; k" := (ebind c (fun x => k))
  (at level 61, c at next level, right associativity) : exc_scope.

(** ** Python primitives on JSON values *)

Fixpoint assoc (k : string) (kvs : list (string * json)) : option json :=
  match kvs with
  | [] => None
  | (k', v) :: rest => if String.eqb k k' then Some v else assoc k rest
  end.

(** [d.get(k, default)]: only a dict has [get]. *)
Definition dict_get (d : json) (k : string) (default : json) : Exc json :=
  match d with
  | JObj kvs => ok (match assoc k kvs with Some v => v | None => default end)
  | _ => raise (AttributeError "get")
  end.

(** [d[k]]: [KeyError] on a dict without the key; a list, a string or a
    scalar indexed by a string raises [TypeError]. *)
Definition subscript (d : json) (k : string) : Exc json :=
  match d with
  | JObj kvs =>
      match assoc k kvs with
      | Some v => ok v
      | None => raise (KeyError k)
      end
  | _ => raise TypeError
  end.

Fixpoint chars (s : string) : list json :=
  match s with
  | EmptyString => []
  | String c rest => JStr (String c EmptyString) :: chars rest
  end.

(** [for x in v]: a list yields its elements, a dict its keys, a string
    its characters; anything else is not iterable. *)
Definition py_iter (v : json) : Exc (list json) :=
  match v with
  | JArr l => ok l
  | JObj kvs => ok (map (fun kv => JStr (fst kv)) kvs)
  | JStr s => ok (chars s)
  | _ => raise TypeError
  end.

(** Truthiness, as [or], [if] and the conditional expression use it. *)
Definition truthy (v : json) : bool :=
  match v with
  | JNull => false
  | JBool b => b
  | JNum z => negb (z =? 0)
  | JStr s => negb (String.eqb s "")
  | JArr l => match l with [] => false | _ => true end
  | JObj kvs => match kvs with [] => false | _ => true end
  end.

(** [str(n)] for an [int]. *)
Definition str_Z (z : Z) : string := NilZero.string_of_int (Z.to_int z).

Definition nl : string := String (ascii_of_nat 10) EmptyString.
Definition dquote : ascii := ascii_of_nat 34.
Definition squote : ascii := ascii_of_nat 39.
Definition backslash : ascii := ascii_of_nat 92.

Fixpoint mem_char (c : ascii) (s : string) : bool :=
  match s with
  | EmptyString => false
  | String c' rest => Ascii.eqb c c' || mem_char c rest
  end.

Definition hex_digit (n : nat) : ascii :=
  match n with
  | 0%nat => "0" | 1%nat => "1" | 2%nat => "2" | 3%nat => "3"
  | 4%nat => "4" | 5%nat => "5" | 6%nat => "6" | 7%nat => "7"
  | 8%nat => "8" | 9%nat => "9" | 10%nat => "a" | 11%nat => "b"
  | 12%nat => "c" | 13%nat => "d" | 14%nat => "e" | _ => "f"
  end%char.

(** One character of [repr(s)]: backslash and the chosen quote are
    escaped, control characters are spelled [\n], [\r], [\t] or [\xNN];
    bytes of non-ASCII text pass through. *)
Definition repr_char (quote : ascii) (c : ascii) : string :=
  let n := nat_of_ascii c in
  if Ascii.eqb c backslash then String backslash (String backslash "")
  else if Ascii.eqb c quote then String backslash (String quote "")
  else if Nat.eqb n 10 then String backslash "n"
  else if Nat.eqb n 13 then String backslash "r"
  else if Nat.eqb n 9 then String backslash "t"
  else if Nat.ltb n 32 || Nat.eqb n 127 then
    String backslash
      (String "x" (String (hex_digit (n / 16)) (String (hex_digit (n mod 16)) "")))
  else String c "".

Fixpoint repr_chars (quote : ascii) (s : string) : string :=
  match s with
  | EmptyString => ""
  | String c rest => repr_char quote c ++ repr_chars quote rest
  end.

(** [repr(s)] for a [str]: single quotes, unless the text holds a single
    quote and no double quote. *)
Definition repr_str (s : string) : string :=
  let quote := if mem_char squote s && negb (mem_char dquote s)
               then dquote else squote in
  String quote (repr_chars quote s ++ String quote "").

Fixpoint py_repr (v : json) : string :=
  match v with
  | JNull => "None"
  | JBool true => "True"
  | JBool false => "False"
  | JNum z => str_Z z
  | JStr s => repr_str s
  | JArr l => "[" ++ String.concat ", " (map py_repr l) ++ "]"
  | JObj kvs =>
      "{" ++ String.concat ", "
               (map (fun kv => match kv with
                               | (k, x) => repr_str k ++ ": " ++ py_repr x
                               end) kvs) ++ "}"
  end.

(** [str(v)], what an f-string writes for [{v}]: a [str] is written as
    it is, every other value as its [repr]. *)
Definition py_str (v : json) : string :=
  match v with
  | JStr s => s
  | _ => py_repr v
  end.

(** [s.strip()]: leading and trailing white space is dropped. Text is
    kept as its UTF-8 bytes, so a white-space character is one byte
    (tab to carriage return, the four separators 28 to 31, blank), two
    bytes (U+0085, U+00A0) or three (U+1680, U+2000 to U+200A, U+2028,
    U+2029, U+202F, U+205F, U+3000). *)
Definition is_space (c : ascii) : bool :=
  let n := nat_of_ascii c in
  (Nat.leb 9 n && Nat.leb n 13) || (Nat.leb 28 n && Nat.leb n 32).

Definition is_space2 (c1 c2 : ascii) : bool :=
  let n2 := nat_of_ascii c2 in
  Nat.eqb (nat_of_ascii c1) 194 && (Nat.eqb n2 133 || Nat.eqb n2 160).

Definition is_space3 (c1 c2 c3 : ascii) : bool :=
  let n1 := nat_of_ascii c1 in
  let n2 := nat_of_ascii c2 in
  let n3 := nat_of_ascii c3 in
  (Nat.eqb n1 225 && Nat.eqb n2 154 && Nat.eqb n3 128)
  || (Nat.eqb n1 226 && Nat.eqb n2 128
      && ((Nat.leb 128 n3 && Nat.leb n3 138)
          || Nat.eqb n3 168 || Nat.eqb n3 169 || Nat.eqb n3 175))
  || (Nat.eqb n1 226 && Nat.eqb n2 129 && Nat.eqb n3 159)
  || (Nat.eqb n1 227 && Nat.eqb n2 128 && Nat.eqb n3 128).

Fixpoint lstrip (s : string) : string :=
  match s with
  | EmptyString => ""
  | String c1 r1 =>
      if is_space c1 then lstrip r1
      else
        match r1 with
        | EmptyString => s
        | String c2 r2 =>
            if is_space2 c1 c2 then lstrip r2
            else
              match r2 with
              | EmptyString => s
              | String c3 r3 => if is_space3 c1 c2 c3 then lstrip r3 else s
              end
        end
  end.

(** Nothing but white space from here on. *)
Definition all_space (s : string) : bool := String.eqb (lstrip s) "".

Fixpoint rstrip (s : string) : string :=
  match s with
  | EmptyString => ""
  | String c rest => if all_space s then "" else String c (rstrip rest)
  end.

Definition strip (s : string) : string := rstrip (lstrip s).

(** [sep.join(l)] *)
Definition join (sep : string) (l : list string) : string := String.concat sep l.

(** ** pydantic field validation (lax mode)

    A [str] field takes only a [str]; an [int] field takes an [int], a
    [bool] and a string of decimal digits with an optional sign; an
    [Optional] field also takes [None]. [None] stands for a rejected
    input.

    Two approximations, on inputs no property below rests on. Of the
    strings pydantic reads as an [int], only the plain spelling (sign
    and digits) is modelled: text with blanks around the number,
    underscores or a zero fraction is rejected here and accepted by
    pydantic. And the reply of the generation service is validated
    here as laxly as the arguments of a constructor, while the patched
    call is stricter about [limit] (it rejects a [bool] and a numeric
    string): the replies accepted here include those the program
    accepts, with the same fields. *)

Definition validate_str (v : json) : option string :=
  match v with
  | JStr s => Some s
  | _ => None
  end.

Definition validate_optional {A} (f : json -> option A) (v : json)
  : option (option A) :=
  match v with
  | JNull => Some None
  | _ => option_map Some (f v)
  end.

Definition digit_of (c : ascii) : option Z :=
  let n := nat_of_ascii c in
  if Nat.leb 48 n && Nat.leb n 57 then Some (Z.of_nat (n - 48)) else None.

Fixpoint digits_value (acc : Z) (s : string) : option Z :=
  match s with
  | EmptyString => Some acc
  | String c rest =>
      match digit_of c with
      | Some d => digits_value (10 * acc + d) rest
      | None => None
      end
  end.

Definition str_as_int (s : string) : option Z :=
  match s with
  | EmptyString => None
  | String c rest =>
      if Ascii.eqb c "-" then
        match rest with
        | EmptyString => None
        | _ => option_map Z.opp (digits_value 0 rest)
        end
      else if Ascii.eqb c "+" then
        match rest with
        | EmptyString => None
        | _ => digits_value 0 rest
        end
      else digits_value 0 s
  end.

Definition validate_int (v : json) : option Z :=
  match v with
  | JNum z => Some z
  | JBool b => Some (if b then 1 else 0)
  | JStr s => str_as_int s
  | _ => None
  end.

Fixpoint validate_all {A} (f : json -> option A) (l : list json)
  : option (list A) :=
  match l with
  | [] => Some []
  | x :: rest =>
      match f x, validate_all f rest with
      | Some a, Some r => Some (a :: r)
      | _, _ => None
      end
  end.

Definition validate_list {A} (f : json -> option A) (v : json)
  : option (list A) :=
  match v with
  | JArr l => validate_all f l
  | _ => None
  end.

(** [HttpUrl]: at most 2083 bytes, scheme http or https, and a host
    after the scheme.  The field keeps the text it was given.  pydantic
    stores the URL as it writes it back: the same text when what
    follows the last slash of the template is made of letters, digits,
    "-" and "_" ([url_safe] below), and otherwise a normalised one (dot
    segments resolved, characters outside the URL code points
    percent-encoded), which is not modelled.  What is proved about the
    text of a link is therefore stated for such identifiers, or for the
    text [None] of a missing one. *)
Definition HttpUrl_max_length : nat := 2083.

Definition has_scheme (scheme s : string) : bool :=
  String.prefix scheme s && Nat.ltb (String.length scheme) (String.length s).

Definition is_http_url (s : string) : bool :=
  Nat.leb (String.length s) HttpUrl_max_length
  && (has_scheme "http://" s || has_scheme "https://" s).

Definition validate_HttpUrl (v : json) : option string :=
  match v with
  | JStr s => if is_http_url s then Some s else None
  | _ => None
  end.

(** ** The data model (lines 17-35) *)

Module CoLQueryParams.

Record t : Type := mk {
  q : string;
  rank : option string;
  limit : option Z
}.

(** The reply of the generation service is validated against the
    model: [q] is required, [rank] defaults to [None] and [limit] to
    [10]; keys the model does not declare are ignored. *)
Definition validate (v : json) : Exc t :=
  match v with
  | JObj kvs =>
      match
        match assoc "q" kvs with
        | Some x => validate_str x
        | None => None
        end,
        match assoc "rank" kvs with
        | Some x => validate_optional validate_str x
        | None => Some None
        end,
        match assoc "limit" kvs with
        | Some x => validate_optional validate_int x
        | None => Some (Some 10)
        end
      with
      | Some q', Some rank', Some limit' => ok (mk q' rank' limit')
      | _, _, _ => raise (ValidationError "CoLQueryParams")
      end
  | _ => raise (ValidationError "CoLQueryParams")
  end.

End CoLQueryParams.

Module NameInfo.

Record t : Type := mk {
  scientificName : string;
  rank : string;
  link : option string;
  acceptedName : option string;
  classification : option (list string)
}.

(** [NameInfo(scientificName=.., rank=.., link=.., acceptedName=..,
    classification=..)]: every argument is validated against its
    field; one rejected field rejects the record. *)
Definition create (scientificName' rank' link' acceptedName' classification' : json)
  : Exc t :=
  match validate_str scientificName',
        validate_str rank',
        validate_optional validate_HttpUrl link',
        validate_optional validate_str acceptedName',
        validate_optional (validate_list validate_str) classification'
  with
  | Some s, Some r, Some l, Some a, Some c => ok (mk s r l a c)
  | _, _, _, _, _ => raise (ValidationError "NameInfo")
  end.

End NameInfo.

Module ColResponse.

Record t : Type := mk {
  results : list NameInfo.t;
  query_url : string;
  total : Z
}.

(** [ColResponse(results=.., query_url=.., total=..)]: [results] is
    a list of [NameInfo] instances and [query_url] a [str] already;
    [total] is whatever the payload held. *)
Definition create (results' : list NameInfo.t) (query_url' : string) (total' : json)
  : Exc t :=
  match validate_int total' with
  | Some n => ok (mk results' query_url' n)
  | None => raise (ValidationError "ColResponse")
  end.

End ColResponse.

(** ** The outside world

    [input] is the line read from standard input; [chat_structured]
    is the instructor-patched completion call (it receives the system
    instruction and the user message and answers with the arguments
    object of the reply, or raises); [requests_get] is the HTTP GET;
    [chat_summary] is the plain completion call, which answers with the
    [content] of each choice.  The summary prompt is a fixed text
    followed by the JSON dump of the envelope, so the oracle is given
    the envelope. *)

Module Params.
Record t : Type := mk {
  q : string;
  rank : string;
  limit : Z
}.
End Params.

Record Response : Type := mkResponse {
  status_code : Z;
  url : string;
  json_body : Exc json
}.

Record World : Type := mkWorld {
  input : string;
  chat_structured : string -> string -> Exc json;
  requests_get : string -> Params.t -> Exc Response;
  chat_summary : ColResponse.t -> Exc (list (option string))
}.

(** ** The script's effects: console and export file *)

Inductive event : Type :=
| Prompt (text : string)
| Print (text : string)
| PrintSkip (e : exn).

Record Env : Type := mkEnv {
  console : list event;
  csv_file : option (list (list string))
}.

Definition M (A : Type) : Type := Env -> Exc A * Env.

Definition ret {A} (a : A) : M A := fun s => (ok a, s).

Definition bind {A B} (c : M A) (k : A -> M B) : M B :=
  fun s =>
    match c s with
    | (inl e, s') => (inl e, s')
    | (inr a, s') => k a s'
    end.

Definition lift {A} (c : Exc A) : M A := fun s => (c, s).

Definition emit (ev : event) : M unit :=
  fun s => (ok tt, mkEnv (console s ++ [ev]) (csv_file s)).

Definition print (text : string) : M unit := emit (Print text).

(** [open(name, "w")] followed by the rows handed to [csv.writer]. *)
Definition write_csv (rows : list (list string)) : M unit :=
  fun s => (ok tt, mkEnv (console s) (Some rows)).

Definition try_except {A} (body : M A) (handler : exn -> M A) : M A :=
  fun s =>
    match body s with
    | (inl e, s') => handler e s'
    | (inr a, s') => (inr a, s')
    end.

Declare Scope script_scope.
Delimit Scope script_scope with script.
Notation "x <- c ;; k" := (bind c (fun x => k))
  (at level 61, c at next level, right associativity) : script_scope.
Notation "c ;;; k" := (bind c (fun _ => k))
  (at level 61, right associativity) : script_scope.

(** ** Query interpretation (lines 37-58) *)

Definition query_instructions : string :=
"
You are a helpful assistant extracting Catalogue of Life API parameters from user queries.
Return a JSON object with:
- q: a keyword like a species or genus name
- rank: taxonomic rank (like 'species', 'genus', etc.)
- limit: max number of results
".

(** One call, one validation of the reply against [CoLQueryParams]. *)
Definition interpret (w : World) (user_message : string) : Exc CoLQueryParams.t :=
  (reply <- chat_structured w query_instructions user_message ;;
   CoLQueryParams.validate reply)%exc.

(** ** Search parameters (lines 60-66) *)

Definition col_base_url : string :=
  "https://api.checklistbank.org/dataset/3LR/nameusage/search".

(** [x or default] on an optional string and on an optional integer. *)
Definition str_or (x : option string) (default : string) : string :=
  match x with
  | Some s => if String.eqb s "" then default else s
  | None => default
  end.

Definition int_or (x : option Z) (default : Z) : Z :=
  match x with
  | Some n => if n =? 0 then default else n
  | None => default
  end.

Definition params (query_params : CoLQueryParams.t) : Params.t :=
  Params.mk (CoLQueryParams.q query_params)
            (str_or (CoLQueryParams.rank query_params) "species")
            (int_or (CoLQueryParams.limit query_params) 10).

(** ** Result normalization (lines 72-96) *)

Definition taxon_url : string := "https://www.catalogueoflife.org/data/taxon/".

(** [[entry.get("name") for entry in entries]] *)
Fixpoint entry_names (entries : list json) : Exc (list json) :=
  match entries with
  | [] => ok []
  | entry :: rest =>
      (name <- dict_get entry "name" JNull ;;
       names <- entry_names rest ;;
       ok (name :: names))%exc
  end.

(** Lines 80-82, outside the [try]: what they raise ends the run. *)
Definition item_fields (item : json) : Exc (json * json * list json) :=
  (usage <- dict_get item "usage" (JObj []) ;;
   name_info <- dict_get usage "name" (JObj []) ;;
   listed <- dict_get item "classification" (JArr []) ;;
   entries <- py_iter listed ;;
   classification <- entry_names entries ;;
   ok (usage, name_info, classification))%exc.

(** Line 89: [usage.get("accepted", {}).get("name", {}).get("scientificName")] *)
Definition accepted_name (usage : json) : Exc json :=
  (accepted <- dict_get usage "accepted" (JObj []) ;;
   name <- dict_get accepted "name" (JObj []) ;;
   dict_get name "scientificName" JNull)%exc.

(** Line 88: the f-string. *)
Definition link_text (usage : json) : Exc string :=
  (id <- dict_get usage "id" JNull ;;
   ok (taxon_url ++ py_str id))%exc.

(** Lines 85-91, the body of the [try]: the keyword arguments are
    evaluated in order, then the record is validated. *)
Definition make_result (usage name_info : json) (classification : list json)
  : Exc NameInfo.t :=
  (scientificName <- subscript name_info "scientificName" ;;
   rank <- subscript name_info "rank" ;;
   link <- link_text usage ;;
   acceptedName <- accepted_name usage ;;
   NameInfo.create scientificName rank (JStr link) acceptedName
     (if truthy (JArr classification) then JArr classification else JNull))%exc.

Definition print_skip (e : exn) : M unit := emit (PrintSkip e).

Fixpoint normalize (items : list json) (results : list NameInfo.t)
  : M (list NameInfo.t) :=
  match items with
  | [] => ret results
  | item :: rest =>
      (fields <- lift (item_fields item) ;;
       results' <-
         (let '(usage, name_info, classification) := fields in
          try_except
            (result <- lift (make_result usage name_info classification) ;;
             ret (results ++ [result])%list)
            (fun e => print_skip e ;;; ret results)) ;;
       normalize rest results')%script
  end.

(** One pass of the loop body as a value: the outer result is what
    lines 80-82 raise, the inner one is what the [try] caught. *)
Definition normalize_item (item : json) : Exc (Exc NameInfo.t) :=
  (fields <- item_fields item ;;
   let '(usage, name_info, classification) := fields in
   ok (make_result usage name_info classification))%exc.

(** Lines 73-96: the status branch. *)
Definition parse_response (response : Response) : M (list NameInfo.t * json) :=
  (if status_code response =? 200 then
     data <- lift (json_body response) ;;
     total <- lift (dict_get data "total" (JNum 0)) ;;
     listed <- lift (dict_get data "result" (JArr [])) ;;
     items <- lift (py_iter listed) ;;
     results <- normalize items [] ;;
     ret (results, total)
   else
     print ("API call failed: " ++ str_Z (status_code response)) ;;;
     ret ([], JNum 0))%script.

(** Lines 72-103: from the response to the envelope. *)
Definition structured_response (response : Response) : M ColResponse.t :=
  (parsed <- parse_response response ;;
   let '(results, total) := parsed in
   lift (ColResponse.create results (url response) total))%script.

(** ** Report and export (lines 123-153) *)

Definition report_line (i : nat) (result : NameInfo.t) : string :=
  let classification :=
    match NameInfo.classification result with
    | Some (c :: cs) => " | Classification: " ++ join " > " (c :: cs)
    | _ => ""
    end in
  let accepted :=
    match NameInfo.acceptedName result with
    | Some a => if String.eqb a "" then ""
                else " (Accepted name: " ++ a ++ ")"
    | None => ""
    end in
  str_Z (Z.of_nat i) ++ ". " ++ NameInfo.scientificName result
    ++ " (" ++ NameInfo.rank result ++ ") - "
    ++ match NameInfo.link result with Some l => l | None => "No link" end
    ++ accepted ++ classification.

Fixpoint print_results (i : nat) (results : list NameInfo.t) : M unit :=
  match results with
  | [] => ret tt
  | result :: rest =>
      (print (report_line i result) ;;; print_results (S i) rest)%script
  end.

Definition csv_header : list string :=
  ["Scientific Name"; "Rank"; "Link"; "Accepted Name"; "Classification"].

Definition csv_row (r : NameInfo.t) : list string :=
  [ NameInfo.scientificName r;
    NameInfo.rank r;
    match NameInfo.link r with Some l => l | None => "" end;
    str_or (NameInfo.acceptedName r) "";
    join " > " match NameInfo.classification r with Some c => c | None => [] end ].

Definition csv_filename : string := "col_results.csv".

(** Lines 139-153. *)
Definition export (structured_response : ColResponse.t) : M unit :=
  (if 0 <? ColResponse.total structured_response then
     write_csv (csv_header :: map csv_row (ColResponse.results structured_response)) ;;;
     print ("📁 Results saved to " ++ csv_filename ++ nl)
   else ret tt)%script.

(** [summary_response.choices[0].message.content.strip()] *)
Definition summary_text (choices : list (option string)) : Exc string :=
  match choices with
  | [] => raise IndexError
  | None :: _ => raise (AttributeError "strip")
  | Some content :: _ => ok (strip content)
  end.

(** Lines 123-137. *)
Definition report (structured_response : ColResponse.t)
    (summary_response : list (option string)) : M unit :=
  (print (nl ++ "✅ Structured Catalogue of Life Results") ;;;
   print ("Total matching records: " ++ str_Z (ColResponse.total structured_response)) ;;;
   print ("Query URL: " ++ ColResponse.query_url structured_response) ;;;
   print "Results:" ;;;
   print_results 1 (ColResponse.results structured_response) ;;;
   print (nl ++ "🧠 GPT Summary:") ;;;
   summary <- lift (summary_text summary_response) ;;
   print summary ;;;
   print nl)%script.

(** ** The script, top to bottom *)

Definition main (w : World) : M ColResponse.t :=
  (emit (Prompt "Enter your species/taxonomy-related query: ") ;;;
   let user_message := input w in
   query_params <- lift (interpret w user_message) ;;
   response <- lift (requests_get w col_base_url (params query_params)) ;;
   structured_response <- structured_response response ;;
   summary_response <- lift (chat_summary w structured_response) ;;
   report structured_response summary_response ;;;
   export structured_response ;;;
   ret structured_response)%script.

Definition run (w : World) : Exc ColResponse.t * Env := main w (mkEnv [] None).

(** * Vocabulary of the properties *)

(** ** Views of the loop and of the console *)

(** The loop body on a dict, by the two values it reads from the
    element. *)
Definition normalize_parts (usage listed : json) : Exc (Exc NameInfo.t) :=
  (name_info <- dict_get usage "name" (JObj []) ;;
   entries <- py_iter listed ;;
   classification <- entry_names entries ;;
   ok (make_result usage name_info classification))%exc.

(** What one element adds to [results] and to the console. *)
Definition kept (item : json) : list NameInfo.t :=
  match normalize_item item with
  | inr (inr result) => [result]
  | _ => []
  end.

Definition skipped (item : json) : list event :=
  match normalize_item item with
  | inr (inl e) => [PrintSkip e]
  | _ => []
  end.

Definition survivors (items : list json) : list NameInfo.t := flat_map kept items.
Definition diagnostics (items : list json) : list event := flat_map skipped items.

Definition is_skip (ev : event) : bool :=
  match ev with
  | PrintSkip _ => true
  | _ => false
  end.

Definition prompt : event := Prompt "Enter your species/taxonomy-related query: ".

Definition api_failed (status : Z) : event :=
  Print ("API call failed: " ++ str_Z status).

(** What lines 72-96 may print. *)
Definition is_diagnostic (ev : event) : bool :=
  match ev with
  | PrintSkip _ => true
  | Print text => String.prefix "API call failed: " text
  | Prompt _ => false
  end.

Fixpoint report_lines (i : nat) (results : list NameInfo.t) : list event :=
  match results with
  | [] => []
  | result :: rest => Print (report_line i result) :: report_lines (S i) rest
  end.

(** Everything the report prints before it reads the summary. *)
Definition report_head (sr : ColResponse.t) : list event :=
  [Print (nl ++ "✅ Structured Catalogue of Life Results");
   Print ("Total matching records: " ++ str_Z (ColResponse.total sr));
   Print ("Query URL: " ++ ColResponse.query_url sr);
   Print "Results:"]
  ++ report_lines 1 (ColResponse.results sr)
  ++ [Print (nl ++ "🧠 GPT Summary:")].

Definition saved : event := Print ("📁 Results saved to " ++ csv_filename ++ nl).

(** ** Elements with a field taken out *)

Definition del (k : string) (kvs : list (string * json)) : list (string * json) :=
  filter (fun kv => negb (String.eqb k (fst kv))) kvs.

Definition update (k : string) (f : json -> json) (kvs : list (string * json))
  : list (string * json) :=
  map (fun kv => if String.eqb k (fst kv) then (fst kv, f (snd kv)) else kv) kvs.

(** A dict without the key [k]; the element with its usage object
    changed by [f]. *)
Definition drop_key (k : string) (v : json) : json :=
  match v with
  | JObj kvs => JObj (del k kvs)
  | _ => v
  end.

Definition in_usage (f : json -> json) (item : json) : json :=
  match item with
  | JObj kvs => JObj (update "usage" f kvs)
  | _ => item
  end.

Definition without_id (item : json) : json := in_usage (drop_key "id") item.
Definition without_accepted (item : json) : json :=
  in_usage (drop_key "accepted") item.
Definition without_classification (item : json) : json :=
  drop_key "classification" item.

(** The entity with one optional field replaced. *)
Definition set_link (l : option string) (r : NameInfo.t) : NameInfo.t :=
  NameInfo.mk (NameInfo.scientificName r) (NameInfo.rank r) l
    (NameInfo.acceptedName r) (NameInfo.classification r).

Definition set_acceptedName (a : option string) (r : NameInfo.t) : NameInfo.t :=
  NameInfo.mk (NameInfo.scientificName r) (NameInfo.rank r) (NameInfo.link r)
    a (NameInfo.classification r).

Definition set_classification (c : option (list string)) (r : NameInfo.t)
  : NameInfo.t :=
  NameInfo.mk (NameInfo.scientificName r) (NameInfo.rank r) (NameInfo.link r)
    (NameInfo.acceptedName r) c.

(** ** Shape of the payload *)

(** Some segment of accepted -> name -> scientificName is not there. *)
Definition accepted_path_missing (usage : list (string * json)) : bool :=
  match assoc "accepted" usage with
  | None => true
  | Some (JObj accepted) =>
      match assoc "name" accepted with
      | None => true
      | Some (JObj name) =>
          match assoc "scientificName" name with
          | None => true
          | Some _ => false
          end
      | Some _ => false
      end
  | Some _ => false
  end.

Definition is_dict (v : json) : bool :=
  match v with
  | JObj _ => true
  | _ => false
  end.

(** The shape of a result element of the search API: an object whose
    "usage", when there, is an object and whose "classification", when
    there, is a list of objects. *)
Definition item_shape (item : json) : bool :=
  match item with
  | JObj kvs =>
      match assoc "usage" kvs with
      | Some usage => is_dict usage
      | None => true
      end
      && match assoc "classification" kvs with
         | Some (JArr entries) => forallb is_dict entries
         | Some _ => false
         | None => true
         end
  | _ => false
  end.

(** The nested name object of an element, empty when there is none. *)
Definition name_object (item : json) : list (string * json) :=
  match item with
  | JObj kvs =>
      match assoc "usage" kvs with
      | Some (JObj usage) =>
          match assoc "name" usage with
          | Some (JObj name) => name
          | _ => []
          end
      | _ => []
      end
  | _ => []
  end.

(** The element has no scientificName or no rank in its name object. *)
Definition lacks_required (item : json) : bool :=
  match assoc "scientificName" (name_object item),
        assoc "rank" (name_object item) with
  | Some _, Some _ => false
  | _, _ => true
  end.

(** ** Sample elements *)

Definition lion : json :=
  JObj [("usage",
         JObj [("id", JStr "ABC");
               ("name", JObj [("scientificName", JStr "Panthera leo");
                              ("rank", JStr "species")])]);
        ("classification",
         JArr [JObj [("name", JStr "Animalia")];
               JObj [("name", JStr "Felidae")]])].

Definition lion_entity : NameInfo.t :=
  NameInfo.mk "Panthera leo" "species"
    (Some "https://www.catalogueoflife.org/data/taxon/ABC")
    None (Some ["Animalia"; "Felidae"]).

Definition lion_without_id : json :=
  JObj [("usage",
         JObj [("name", JObj [("scientificName", JStr "Panthera leo");
                              ("rank", JStr "species")])])].

Definition tiger : json :=
  JObj [("usage",
         JObj [("id", JStr "4CGXS");
               ("name", JObj [("scientificName", JStr "Panthera tigris");
                              ("rank", JStr "species")]);
               ("accepted",
                JObj [("name", JObj [("scientificName", JStr "Panthera tigris")])])])].

(** A synonym whose accepted sub-object carries no name, with an empty
    classification list. *)
Definition synonym : json :=
  JObj [("usage",
         JObj [("id", JStr "4QHKG");
               ("name", JObj [("scientificName", JStr "Felis leo");
                              ("rank", JStr "species")]);
               ("accepted", JObj [("id", JStr "6DBT4")])]);
        ("classification", JArr [])].

Definition synonym_entity : NameInfo.t :=
  NameInfo.mk "Felis leo" "species"
    (Some "https://www.catalogueoflife.org/data/taxon/4QHKG") None None.

Definition nameless : json := JObj [("usage", JObj [("name", JObj [])])].

Definition rankless : json :=
  JObj [("usage",
         JObj [("id", JStr "X1");
               ("name", JObj [("scientificName", JStr "Panthera")])]);
        ("classification", JArr [JObj [("name", JStr "Animalia")]])].

Definition empty_names : json :=
  JObj [("usage",
         JObj [("id", JStr "7");
               ("name", JObj [("scientificName", JStr ""); ("rank", JStr "")])])].

(** The second ancestor has no name. *)
Definition unnamed_ancestor : json :=
  JObj [("usage",
         JObj [("id", JStr "ABC");
               ("name", JObj [("scientificName", JStr "Panthera leo");
                              ("rank", JStr "species")])]);
        ("classification", JArr [JObj [("name", JStr "Animalia")]; JObj []])].

(** An element outside the shape: its classification is null. *)
Definition null_classification : json :=
  JObj [("usage", JObj [("name", JObj [])]); ("classification", JNull)].

Definition five_of_which_three : list json :=
  [lion; nameless; tiger; rankless; synonym].

(** ** Sample worlds *)

Definition search_url : string :=
  "https://api.checklistbank.org/dataset/3LR/nameusage/search?q=Panthera&rank=species&limit=10".

Definition search_result (status : Z) (total : Z) (items : list json) : Response :=
  mkResponse status search_url
    (ok (JObj [("total", JNum total); ("result", JArr items)])).

Definition offline {A B C : Type} : A -> B -> Exc C :=
  fun _ _ => raise (ServiceError "offline").

Definition panthera_query : string -> string -> Exc json :=
  fun _ _ => ok (JObj [("q", JStr "Panthera")]).

(** The generation service answers with an empty keyword; with a
    keyword of blanks. *)
Definition empty_keyword_world : World :=
  mkWorld "lions"
    (fun _ _ => ok (JObj [("q", JStr "")]))
    offline
    (fun _ => raise (ServiceError "offline")).

Definition blank_keyword_world : World :=
  mkWorld "lions"
    (fun _ _ => ok (JObj [("q", JStr "   "); ("limit", JNum 3)]))
    offline
    (fun _ => raise (ServiceError "offline")).

(** The search answers, the summary call raises. *)
Definition summary_down_world : World :=
  mkWorld "lions" panthera_query
    (fun _ _ => ok (search_result 200 2 [lion; nameless]))
    (fun _ => raise (ServiceError "summary")).

(** The search answers with HTTP 500. *)
Definition search_down_world : World :=
  mkWorld "lions" panthera_query
    (fun _ _ => ok (search_result 500 2 [lion; nameless]))
    (fun _ => ok [Some "  No records were returned.  "]).

(** The search reports 5 matches, none of which can be normalized. *)
Definition all_malformed_world : World :=
  mkWorld "lions" panthera_query
    (fun _ _ => ok (search_result 200 5 [nameless; rankless]))
    (fun _ => ok [Some "Nothing could be read."]).

(** Scenario A of the specification: two matches, one without names. *)
Definition scenario_A_world : World :=
  mkWorld "lions" panthera_query
    (fun _ _ => ok (search_result 200 2 [lion; nameless]))
    (fun _ => ok [Some "One lion."]).

(** ** Further sample elements and worlds *)

(** The accepted sub-object is there but null. *)
Definition null_accepted : json :=
  JObj [("usage",
         JObj [("id", JStr "ABC");
               ("name", JObj [("scientificName", JStr "Panthera leo");
                              ("rank", JStr "species")]);
               ("accepted", JNull)])].


(** The reply names a keyword only; [rank] is null, [limit] is not there. *)
Definition bare_keyword_world : World :=
  mkWorld "lions"
    (fun _ _ => ok (JObj [("q", JStr "Panthera"); ("rank", JNull)]))
    offline
    (fun _ => raise (ServiceError "offline")).

(** The search cannot be reached. *)
Definition request_down_world : World :=
  mkWorld "lions" panthera_query offline
    (fun _ => ok [Some "unused"]).

(** A 200 answer whose payload has no "total". *)
Definition no_total_world : World :=
  mkWorld "lions" panthera_query
    (fun _ _ => ok (mkResponse 200 search_url
                      (ok (JObj [("result", JArr [lion; nameless])]))))
    (fun _ => ok [Some "One lion."]).

(** A 200 answer whose "total" is null. *)
Definition null_total_world : World :=
  mkWorld "lions" panthera_query
    (fun _ _ => ok (mkResponse 200 search_url
                      (ok (JObj [("total", JNull);
                                 ("result", JArr [lion; nameless])]))))
    (fun _ => ok [Some "One lion."]).

(** A 200 answer whose payload has no "result". *)
Definition no_result_response : Response :=
  mkResponse 200 search_url (ok (JObj [("total", JNum 7)])).

(** The summary call answers with a choice that has no content. *)
Definition silent_summary_world : World :=
  mkWorld "lions" panthera_query
    (fun _ _ => ok (search_result 200 2 [lion; nameless]))
    (fun _ => ok [None]).

(** A key of the reply is not there or null. *)
Definition absent_or_null (k : string) (kvs : list (string * json)) : bool :=
  match assoc k kvs with
  | None | Some JNull => true
  | Some _ => false
  end.

(** ** Identifiers and totals of a particular kind *)

(** Letters, digits, "-" and "_": text that a URL keeps as it is. *)
Definition url_safe_char (c : ascii) : bool :=
  let n := nat_of_ascii c in
  (Nat.leb 48 n && Nat.leb n 57)
  || (Nat.leb 65 n && Nat.leb n 90)
  || (Nat.leb 97 n && Nat.leb n 122)
  || Nat.eqb n 45 || Nat.eqb n 95.

Fixpoint url_safe (s : string) : bool :=
  match s with
  | EmptyString => true
  | String c rest => url_safe_char c && url_safe rest
  end.

(** An identifier of 2041 letters, one more than the URL may take, and
    an element that carries it with both of its names. *)
Definition overlong_id : string := string_of_list_ascii (repeat "a"%char 2041).

Definition overlong : json :=
  JObj [("usage",
         JObj [("id", JStr overlong_id);
               ("name", JObj [("scientificName", JStr "Panthera leo");
                              ("rank", JStr "species")])])].

(** A value that no [int] field takes, however it is spelled. *)
Definition never_an_int (v : json) : bool :=
  match v with
  | JNull | JArr _ | JObj _ => true
  | _ => false
  end.

(** An element whose usage is null; a search whose second match has a
    null classification. *)
Definition null_usage : json := JObj [("usage", JNull)].

Definition aborting_batch_world : World :=
  mkWorld "lions" panthera_query
    (fun _ _ => ok (search_result 200 5 [lion; null_classification; tiger]))
    (fun _ => ok [Some "Two big cats."]).

(** * Properties *)

(** ** Python text of JSON values *)

Example py_str_none : py_str JNull = "None".
Proof. reflexivity. Qed.

Example py_str_int : py_str (JNum (-42)) = "-42" /\ py_str (JNum 0) = "0".
Proof. split; reflexivity. Qed.

Example py_str_dict :
  py_str (JObj [("a", JArr [JNum 1; JStr "it's"; JBool true])])
  = "{'a': [1, " ++ String dquote ("it's" ++ String dquote ", True]}").
Proof. reflexivity. Qed.

(** ** Reasoning about [Exc] and [M] *)

Lemma ebind_inr {A B} (c : Exc A) (k : A -> Exc B) (b : B) :
  ebind c k = inr b -> exists a, c = inr a /\ k a = inr b.
Proof.
  destruct c as [e | a]; simpl; intro H.
  - discriminate.
  - exists a; split; [reflexivity | exact H].
Qed.

Ltac exc_inv H :=
  let a := fresh "v" in
  let Ha := fresh "E" in
  apply ebind_inr in H; destruct H as (a & Ha & H).

Lemma env_eta (env : Env) : mkEnv (console env) (csv_file env) = env.
Proof. destruct env; reflexivity. Qed.

(** ** Dictionaries *)

Lemma assoc_del_same k kvs : assoc k (del k kvs) = None.
Proof.
  induction kvs as [| [k' v] rest IH]; simpl; [reflexivity |].
  destruct (String.eqb k k') eqn:E; simpl; [exact IH |].
  rewrite E; exact IH.
Qed.

Lemma assoc_del_other k k' kvs :
  String.eqb k' k = false -> assoc k' (del k kvs) = assoc k' kvs.
Proof.
  intro Hne.
  induction kvs as [| [k0 v] rest IH]; simpl; [reflexivity |].
  destruct (String.eqb k k0) eqn:E; simpl.
  - apply String.eqb_eq in E; subst k0. rewrite Hne. exact IH.
  - destruct (String.eqb k' k0); [reflexivity | exact IH].
Qed.

Lemma assoc_update_same k f kvs :
  assoc k (update k f kvs) = option_map f (assoc k kvs).
Proof.
  induction kvs as [| [k0 v] rest IH]; simpl; [reflexivity |].
  destruct (String.eqb k k0) eqn:E; simpl; rewrite E; [reflexivity | exact IH].
Qed.

Lemma assoc_update_other k k' f kvs :
  String.eqb k' k = false -> assoc k' (update k f kvs) = assoc k' kvs.
Proof.
  intro Hne.
  induction kvs as [| [k0 v] rest IH]; simpl; [reflexivity |].
  destruct (String.eqb k k0) eqn:E; simpl.
  - apply String.eqb_eq in E; subst k0. rewrite Hne. exact IH.
  - destruct (String.eqb k' k0); [reflexivity | exact IH].
Qed.

(** ** The normalization loop *)

Lemma normalize_step item rest results env :
  normalize (item :: rest) results env =
  match normalize_item item with
  | inl e => (inl e, env)
  | inr (inl e) =>
      normalize rest results (mkEnv (console env ++ [PrintSkip e]) (csv_file env))
  | inr (inr result) => normalize rest (results ++ [result])%list env
  end.
Proof.
  unfold normalize_item; simpl normalize; unfold bind, lift, try_except.
  destruct (item_fields item) as [e | [[usage name_info] classification]]; simpl;
    [reflexivity |].
  destruct (make_result usage name_info classification); reflexivity.
Qed.

(** When lines 80-82 raise on no element, the loop keeps the survivors
    in order and prints one diagnostic per skipped element. *)
Lemma normalize_total items : forall results env,
  (forall item, In item items -> exists x, normalize_item item = inr x) ->
  normalize items results env =
  (inr (results ++ survivors items)%list,
   mkEnv (console env ++ diagnostics items) (csv_file env)).
Proof.
  induction items as [| item rest IH]; intros results env Hok.
  - simpl. unfold ret, ok. rewrite !app_nil_r, env_eta. reflexivity.
  - rewrite normalize_step.
    destruct (Hok item (or_introl eq_refl)) as [x Hx].
    assert (Hrest : forall i, In i rest -> exists y, normalize_item i = inr y)
      by (intros i Hi; apply Hok; right; exact Hi).
    unfold survivors, diagnostics; simpl flat_map; unfold kept at 1, skipped at 1.
    rewrite Hx. destruct x as [e | result].
    + rewrite (IH _ _ Hrest). simpl. rewrite <- app_assoc. reflexivity.
    + rewrite (IH _ _ Hrest). simpl. rewrite <- app_assoc. reflexivity.
Qed.

(** Whatever the loop does, it only adds skip diagnostics to the
    console and leaves the export file alone. *)
Lemma normalize_effects items : forall results env x env',
  normalize items results env = (x, env') ->
  csv_file env' = csv_file env
  /\ exists evs, console env' = (console env ++ evs)%list
                 /\ forallb is_skip evs = true.
Proof.
  induction items as [| item rest IH]; intros results env x env' H.
  - simpl in H. inversion H; subst. split; [reflexivity |].
    exists []. rewrite app_nil_r. split; reflexivity.
  - rewrite normalize_step in H.
    destruct (normalize_item item) as [e | [e | result]].
    + inversion H; subst. split; [reflexivity |].
      exists []. rewrite app_nil_r. split; reflexivity.
    + apply IH in H. simpl in H. destruct H as (Hc & evs & Hev & Hall).
      split; [exact Hc |].
      exists (PrintSkip e :: evs). rewrite Hev, <- app_assoc. split; [reflexivity |].
      simpl. exact Hall.
    + apply IH in H. exact H.
Qed.

(** ** What an emitted entity says about its element *)

Lemma emitted_fields item r :
  normalize_item item = inr (inr r) ->
  exists usage name_info classification,
    item_fields item = inr (usage, name_info, classification)
    /\ make_result usage name_info classification = inr r.
Proof.
  unfold normalize_item. intro H. exc_inv H.
  destruct v as [[usage name_info] classification].
  exists usage, name_info, classification. split; [exact E |].
  unfold ok in H. congruence.
Qed.

Lemma item_fields_inr item usage name_info classification :
  item_fields item = inr (usage, name_info, classification) ->
  dict_get item "usage" (JObj []) = inr usage
  /\ dict_get usage "name" (JObj []) = inr name_info
  /\ exists listed entries,
       dict_get item "classification" (JArr []) = inr listed
       /\ py_iter listed = inr entries
       /\ entry_names entries = inr classification.
Proof.
  unfold item_fields. intro H.
  exc_inv H. exc_inv H. exc_inv H. exc_inv H. exc_inv H.
  unfold ok in H. inversion H; subst.
  split; [exact E |]. split; [exact E0 |].
  exists v1, v2. auto.
Qed.

Lemma make_result_inr usage name_info classification r :
  make_result usage name_info classification = inr r ->
  exists scientificName rank link acceptedName,
    subscript name_info "scientificName" = inr scientificName
    /\ subscript name_info "rank" = inr rank
    /\ link_text usage = inr link
    /\ accepted_name usage = inr acceptedName
    /\ NameInfo.create scientificName rank (JStr link) acceptedName
         (if truthy (JArr classification) then JArr classification else JNull)
       = inr r.
Proof.
  unfold make_result. intro H.
  exc_inv H. exc_inv H. exc_inv H. exc_inv H.
  exists v, v0, v1, v2. auto.
Qed.

Lemma create_inr s k l a c r :
  NameInfo.create s k l a c = inr r ->
  validate_str s = Some (NameInfo.scientificName r)
  /\ validate_str k = Some (NameInfo.rank r)
  /\ validate_optional validate_HttpUrl l = Some (NameInfo.link r)
  /\ validate_optional validate_str a = Some (NameInfo.acceptedName r)
  /\ validate_optional (validate_list validate_str) c
     = Some (NameInfo.classification r).
Proof.
  unfold NameInfo.create.
  destruct (validate_str s), (validate_str k),
    (validate_optional validate_HttpUrl l),
    (validate_optional validate_str a),
    (validate_optional (validate_list validate_str) c);
    intro H; try discriminate.
  unfold ok in H. inversion H; subst; simpl. auto.
Qed.

Lemma create_ok s k l a c s' k' l' a' c' :
  validate_str s = Some s' ->
  validate_str k = Some k' ->
  validate_optional validate_HttpUrl l = Some l' ->
  validate_optional validate_str a = Some a' ->
  validate_optional (validate_list validate_str) c = Some c' ->
  NameInfo.create s k l a c = inr (NameInfo.mk s' k' l' a' c').
Proof.
  intros Hs Hk Hl Ha Hc. unfold NameInfo.create.
  rewrite Hs, Hk, Hl, Ha, Hc. reflexivity.
Qed.

Lemma validate_link_inr (text : string) (l : option string) :
  validate_optional validate_HttpUrl (JStr text) = Some l ->
  l = Some text /\ is_http_url text = true.
Proof.
  unfold validate_optional, validate_HttpUrl.
  destruct (is_http_url text); simpl; intro H; [| discriminate H].
  split; congruence.
Qed.

(** The link of an emitted entity is the text of the f-string, and that
    text passed the URL check. *)
Lemma emitted_link item usage r :
  dict_get item "usage" (JObj []) = inr usage ->
  normalize_item item = inr (inr r) ->
  exists id,
    dict_get usage "id" JNull = inr id
    /\ NameInfo.link r = Some (taxon_url ++ py_str id)
    /\ is_http_url (taxon_url ++ py_str id) = true.
Proof.
  intros Hu H.
  apply emitted_fields in H. destruct H as (u & n & c & Hf & Hm).
  apply item_fields_inr in Hf. destruct Hf as (Hu' & _).
  rewrite Hu in Hu'. inversion Hu'; subst u.
  apply make_result_inr in Hm.
  destruct Hm as (sn & rk & lk & an & _ & _ & Hl & _ & Hc).
  apply create_inr in Hc. destruct Hc as (_ & _ & Hlink & _).
  apply validate_link_inr in Hlink. destruct Hlink as (Hlink & Hurl).
  unfold link_text in Hl. exc_inv Hl.
  assert (Hlk : lk = taxon_url ++ py_str v) by (unfold ok in Hl; congruence).
  exists v. rewrite <- Hlk. auto.
Qed.

Lemma is_http_url_taxon (x : string) :
  is_http_url (taxon_url ++ x) = Nat.leb (String.length x) 2040.
Proof.
  unfold is_http_url, has_scheme, HttpUrl_max_length.
  replace (String.prefix "https://" (taxon_url ++ x)) with true by reflexivity.
  replace (String.prefix "http://" (taxon_url ++ x)) with false by reflexivity.
  assert (L : String.length (taxon_url ++ x) = (43 + String.length x)%nat)
    by reflexivity.
  rewrite L.
  replace (Nat.ltb (String.length "https://") (43 + String.length x)) with true
    by (symmetry; apply Nat.ltb_lt; simpl; lia).
  simpl andb. rewrite Bool.andb_true_r.
  destruct (Nat.leb_spec (43 + String.length x) 2083),
           (Nat.leb_spec (String.length x) 2040); try reflexivity; lia.
Qed.

(** ** Query interpretation *)

(** C1, as stated, fails: [q] is a plain [str] field, so an empty or
    blank keyword from the generation service is accepted as it is. *)
Lemma interpret_accepts_empty_keyword :
  interpret empty_keyword_world "lions" = inr (CoLQueryParams.mk "" None (Some 10))
  /\ strip "" = ""
  /\ interpret blank_keyword_world "lions"
     = inr (CoLQueryParams.mk "   " None (Some 3))
  /\ strip "   " = "".
Proof. repeat split; reflexivity. Qed.

Lemma validate_inr v qp :
  CoLQueryParams.validate v = inr qp ->
  exists kvs, v = JObj kvs /\ assoc "q" kvs = Some (JStr (CoLQueryParams.q qp)).
Proof.
  destruct v as [| b | z | s | l | kvs]; simpl; try discriminate.
  intro H. exists kvs. split; [reflexivity |].
  destruct (assoc "q" kvs) as [x |]; [| discriminate H].
  destruct x; simpl in H; try discriminate H.
  destruct (match assoc "rank" kvs with
            | Some x => validate_optional validate_str x
            | None => Some None
            end); [| discriminate H].
  destruct (match assoc "limit" kvs with
            | Some x => validate_optional validate_int x
            | None => Some (Some 10)
            end); [| discriminate H].
  unfold ok in H. inversion H; subst; reflexivity.
Qed.

(** C1, amended: the keyword of an accepted interpretation is the
    string the generation service gave under [q], unchanged and
    possibly empty; a reply without a string under [q] is rejected with
    a validation error, no value is put in its place. *)
Theorem interpret_keyword_is_reply_q (w : World) (user_message : string) :
  (forall qp, interpret w user_message = inr qp ->
     exists kvs,
       chat_structured w query_instructions user_message = inr (JObj kvs)
       /\ assoc "q" kvs = Some (JStr (CoLQueryParams.q qp)))
  /\ (forall kvs,
        chat_structured w query_instructions user_message = inr (JObj kvs) ->
        (forall s, assoc "q" kvs <> Some (JStr s)) ->
        interpret w user_message = inl (ValidationError "CoLQueryParams")).
Proof.
  unfold interpret. split.
  - intros qp H. exc_inv H. apply validate_inr in H.
    destruct H as (kvs & -> & Hq). exists kvs. auto.
  - intros kvs Hr Hno. rewrite Hr. simpl.
    destruct (assoc "q" kvs) as [x |]; [| reflexivity].
    destruct x; try reflexivity.
    exfalso. apply (Hno s). reflexivity.
Qed.

(** ** Search parameters *)

(** C9: the defaults of the request replace every falsy value: an
    empty rank is sent as "species" and a limit of 0 as 10, the same
    request as when the field is absent. *)
Theorem params_defaults_on_falsy (keyword : string) (rank : option string)
    (limit : option Z) :
  Params.rank (params (CoLQueryParams.mk keyword (Some "") limit)) = "species"
  /\ params (CoLQueryParams.mk keyword (Some "") limit)
     = params (CoLQueryParams.mk keyword None limit)
  /\ Params.limit (params (CoLQueryParams.mk keyword rank (Some 0))) = 10
  /\ params (CoLQueryParams.mk keyword rank (Some 0))
     = params (CoLQueryParams.mk keyword rank None).
Proof. repeat split; reflexivity. Qed.

(** ** Link synthesis *)

(** C3: an element without an identifier is emitted with a link: the
    f-string writes [None] into the template and the text passes the
    URL check, so the link is the template followed by "None". *)
Theorem absent_id_link (item : json) (usage : list (string * json))
    (r : NameInfo.t) :
  dict_get item "usage" (JObj []) = inr (JObj usage) ->
  assoc "id" usage = None ->
  normalize_item item = inr (inr r) ->
  NameInfo.link r = Some "https://www.catalogueoflife.org/data/taxon/None".
Proof.
  intros Hu Hid H.
  destruct (emitted_link _ _ _ Hu H) as (id & Hget & Hlink & _).
  simpl in Hget. rewrite Hid in Hget. unfold ok in Hget.
  assert (id = JNull) by congruence. subst id. exact Hlink.
Qed.

Lemma absent_id_link_witness :
  normalize_item lion_without_id
  = inr (inr (NameInfo.mk "Panthera leo" "species"
                (Some "https://www.catalogueoflife.org/data/taxon/None")
                None None))
  /\ NameInfo.link
       (NameInfo.mk "Panthera leo" "species"
          (Some "https://www.catalogueoflife.org/data/taxon/None") None None)
     = Some "https://www.catalogueoflife.org/data/taxon/None".
Proof.
  split; [reflexivity |].
  apply (absent_id_link lion_without_id
           [("name", JObj [("scientificName", JStr "Panthera leo");
                           ("rank", JStr "species")])]);
    reflexivity.
Defined.

(** ** Optional fields of an entity *)

Lemma normalize_item_parts (item usage listed : json) :
  dict_get item "usage" (JObj []) = inr usage ->
  dict_get item "classification" (JArr []) = inr listed ->
  normalize_item item = normalize_parts usage listed.
Proof.
  intros Hu Hl. unfold normalize_item, item_fields, normalize_parts.
  rewrite Hu. cbn [ebind].
  destruct (dict_get usage "name" (JObj [])) as [e | name_info]; [reflexivity |].
  cbn [ebind]. rewrite Hl. cbn [ebind].
  destruct (py_iter listed) as [e | entries]; [reflexivity |].
  cbn [ebind].
  destruct (entry_names entries) as [e | cls]; reflexivity.
Qed.

Lemma dict_get_inr (d : json) (k : string) (default v : json) :
  dict_get d k default = inr v ->
  exists kvs, d = JObj kvs
              /\ v = match assoc k kvs with Some x => x | None => default end.
Proof.
  destruct d; simpl; try discriminate.
  intro H. exists kvs. unfold ok in H. split; congruence.
Qed.

Lemma emitted_parts (item : json) (r : NameInfo.t) :
  normalize_item item = inr (inr r) ->
  exists kvs usage listed,
    item = JObj kvs
    /\ dict_get item "usage" (JObj []) = inr (JObj usage)
    /\ dict_get item "classification" (JArr []) = inr listed
    /\ normalize_parts (JObj usage) listed = inr (inr r).
Proof.
  intro H. pose proof H as H0.
  apply emitted_fields in H. destruct H as (u & n & c & Hf & _).
  apply item_fields_inr in Hf.
  destruct Hf as (Hu & Hn & listed & entries & Hl & _).
  destruct (dict_get_inr _ _ _ _ Hu) as (kvs & Hitem & _).
  destruct (dict_get_inr _ _ _ _ Hn) as (usage & Husage & _).
  subst u. exists kvs, usage, listed.
  rewrite <- (normalize_item_parts _ _ _ Hu Hl). auto.
Qed.

Lemma normalize_parts_inr (usage listed : json) (r : NameInfo.t) :
  normalize_parts usage listed = inr (inr r) ->
  exists name_info entries cls sn rk lk an,
    dict_get usage "name" (JObj []) = inr name_info
    /\ py_iter listed = inr entries
    /\ entry_names entries = inr cls
    /\ subscript name_info "scientificName" = inr sn
    /\ subscript name_info "rank" = inr rk
    /\ link_text usage = inr lk
    /\ accepted_name usage = inr an
    /\ NameInfo.create sn rk (JStr lk) an
         (if truthy (JArr cls) then JArr cls else JNull) = inr r.
Proof.
  unfold normalize_parts. intro H.
  exc_inv H. exc_inv H. exc_inv H.
  assert (Hm : make_result usage v v1 = inr r) by (unfold ok in H; congruence).
  apply make_result_inr in Hm.
  destruct Hm as (sn & rk & lk & an & Hs & Hk & Hl & Ha & Hc).
  exists v, v0, v1, sn, rk, lk, an. auto 10.
Qed.

Lemma normalize_parts_ok (usage listed name_info : json) entries cls sn rk lk an r :
  dict_get usage "name" (JObj []) = inr name_info ->
  py_iter listed = inr entries ->
  entry_names entries = inr cls ->
  subscript name_info "scientificName" = inr sn ->
  subscript name_info "rank" = inr rk ->
  link_text usage = inr lk ->
  accepted_name usage = inr an ->
  NameInfo.create sn rk (JStr lk) an
    (if truthy (JArr cls) then JArr cls else JNull) = inr r ->
  normalize_parts usage listed = inr (inr r).
Proof.
  intros Hn Hi He Hs Hk Hl Ha Hc.
  unfold normalize_parts, make_result.
  rewrite Hn; cbn [ebind]. rewrite Hi; cbn [ebind].
  rewrite He; cbn [ebind]. unfold ok at 1. f_equal.
  rewrite Hs; cbn [ebind]. rewrite Hk; cbn [ebind].
  rewrite Hl; cbn [ebind]. rewrite Ha; cbn [ebind].
  exact Hc.
Qed.

Lemma accepted_name_missing (usage : list (string * json)) :
  accepted_path_missing usage = true ->
  accepted_name (JObj usage) = inr JNull.
Proof.
  unfold accepted_path_missing, accepted_name. simpl.
  destruct (assoc "accepted" usage) as [a |]; [| reflexivity].
  destruct a as [| | | | | accepted]; try discriminate. simpl.
  destruct (assoc "name" accepted) as [n |]; [| reflexivity].
  destruct n as [| | | | | name]; try discriminate. simpl.
  destruct (assoc "scientificName" name); [discriminate | reflexivity].
Qed.

(** C8: in a normalized entity, [classification] is absent when the
    element's classification list is empty (or not there), and
    [acceptedName] is absent when the element has no accepted
    sub-object or lacks a later segment of accepted -> name ->
    scientificName. *)
Theorem absence_discipline (item : json) (usage : list (string * json))
    (r : NameInfo.t) :
  dict_get item "usage" (JObj []) = inr (JObj usage) ->
  normalize_item item = inr (inr r) ->
  (dict_get item "classification" (JArr []) = inr (JArr []) ->
   NameInfo.classification r = None)
  /\ (accepted_path_missing usage = true -> NameInfo.acceptedName r = None).
Proof.
  intros Hu H.
  destruct (emitted_parts _ _ H) as (kvs & u & listed & _ & Hu' & Hl & Hp).
  rewrite Hu in Hu'. assert (u = usage) by congruence. subst u.
  apply normalize_parts_inr in Hp.
  destruct Hp as (n & entries & cls & sn & rk & lk & an
                  & _ & Hi & He & _ & _ & _ & Ha & Hc).
  apply create_inr in Hc. destruct Hc as (_ & _ & _ & Hacc & Hcls).
  split.
  - intro Hempty. rewrite Hl in Hempty.
    assert (listed = JArr []) by congruence. subst listed.
    simpl in Hi. unfold ok in Hi.
    assert (entries = []) by congruence. subst entries.
    simpl in He. unfold ok in He.
    assert (cls = []) by congruence. subst cls.
    simpl in Hcls. congruence.
  - intro Hmiss. rewrite (accepted_name_missing _ Hmiss) in Ha.
    assert (an = JNull) by congruence. subst an.
    simpl in Hacc. congruence.
Qed.

Lemma absence_discipline_witness :
  normalize_item synonym = inr (inr synonym_entity)
  /\ NameInfo.classification synonym_entity = None
  /\ NameInfo.acceptedName synonym_entity = None.
Proof.
  split; [reflexivity |].
  destruct (absence_discipline synonym
              [("id", JStr "4QHKG");
               ("name", JObj [("scientificName", JStr "Felis leo");
                              ("rank", JStr "species")]);
               ("accepted", JObj [("id", JStr "6DBT4")])]
              synonym_entity eq_refl eq_refl) as [Hc Ha].
  split; [apply Hc | apply Ha]; reflexivity.
Defined.

(** ** Required and optional fields *)

Lemma subscript_inr (d : json) (k : string) (v : json) :
  subscript d k = inr v -> exists kvs, d = JObj kvs /\ assoc k kvs = Some v.
Proof.
  destruct d; simpl; try discriminate.
  destruct (assoc k kvs) as [x |] eqn:E; [| discriminate].
  intro H. exists kvs. unfold ok in H. split; congruence.
Qed.

Lemma validate_str_inr (v : json) (s : string) :
  validate_str v = Some s -> v = JStr s.
Proof. destruct v; simpl; congruence. Qed.

(** The usage object an element is read with after [in_usage]. *)
Lemma usage_in_usage (k : string) (kvs usage : list (string * json)) :
  dict_get (JObj kvs) "usage" (JObj []) = inr (JObj usage) ->
  dict_get (in_usage (drop_key k) (JObj kvs)) "usage" (JObj [])
  = inr (JObj (del k usage)).
Proof.
  simpl. rewrite assoc_update_same.
  destruct (assoc "usage" kvs) as [u |]; simpl; unfold ok; intro H.
  - assert (u = JObj usage) by congruence. subst u. reflexivity.
  - assert (usage = []) by congruence. subst usage. reflexivity.
Qed.

Lemma listed_in_usage (f : json -> json) (kvs : list (string * json)) :
  dict_get (in_usage f (JObj kvs)) "classification" (JArr [])
  = dict_get (JObj kvs) "classification" (JArr []).
Proof.
  simpl. rewrite assoc_update_other by reflexivity. reflexivity.
Qed.

Lemma dict_get_del_other (k k' : string) (kvs : list (string * json)) (d : json) :
  String.eqb k' k = false ->
  dict_get (JObj (del k kvs)) k' d = dict_get (JObj kvs) k' d.
Proof. intro H. simpl. rewrite (assoc_del_other _ _ _ H). reflexivity. Qed.

(** An emitted entity took both names, as strings, from the name
    object of its element. *)
Lemma emitted_names (item : json) (r : NameInfo.t) :
  normalize_item item = inr (inr r) ->
  exists usage name,
    dict_get item "usage" (JObj []) = inr (JObj usage)
    /\ dict_get (JObj usage) "name" (JObj []) = inr (JObj name)
    /\ assoc "scientificName" name = Some (JStr (NameInfo.scientificName r))
    /\ assoc "rank" name = Some (JStr (NameInfo.rank r)).
Proof.
  intro H.
  destruct (emitted_parts _ _ H) as (kvs & usage & listed & -> & Hu & Hl & Hp).
  apply normalize_parts_inr in Hp.
  destruct Hp as (n & entries & cls & sn & rk & lk & an
                  & Hn & _ & _ & Hs & Hk & _ & _ & Hc).
  pose proof (create_inr _ _ _ _ _ _ Hc) as (Vs & Vk & _).
  destruct (subscript_inr _ _ _ Hs) as (name & -> & Hsn).
  destruct (subscript_inr _ _ _ Hk) as (name' & Heq & Hrk).
  assert (name' = name) by congruence. subst name'.
  apply validate_str_inr in Vs, Vk. subst sn rk.
  exists usage, name. auto.
Qed.

(** C5, as stated, fails: an element whose scientificName and rank are
    empty strings is emitted, and a classification entry without a name
    makes the whole element be skipped. *)
Lemma empty_names_are_emitted :
  normalize_item empty_names
  = inr (inr (NameInfo.mk "" ""
                (Some "https://www.catalogueoflife.org/data/taxon/7") None None))
  /\ normalize_item unnamed_ancestor = inr (inl (ValidationError "NameInfo")).
Proof. split; reflexivity. Qed.

(** C5, amended: an entity is emitted only if the element's name object
    holds both scientificName and rank as strings (an empty string will
    do); taking the identifier, the accepted sub-object or the
    classification list out of an emitted element leaves it emitted with
    its other fields unchanged, acceptedName and classification being
    absent in the last two cases. *)
Theorem required_and_optional_fields (item : json) (r : NameInfo.t) :
  normalize_item item = inr (inr r) ->
  (exists usage name,
     dict_get item "usage" (JObj []) = inr usage
     /\ dict_get usage "name" (JObj []) = inr (JObj name)
     /\ assoc "scientificName" name = Some (JStr (NameInfo.scientificName r))
     /\ assoc "rank" name = Some (JStr (NameInfo.rank r)))
  /\ (exists l, normalize_item (without_id item) = inr (inr (set_link l r)))
  /\ normalize_item (without_accepted item) = inr (inr (set_acceptedName None r))
  /\ normalize_item (without_classification item)
     = inr (inr (set_classification None r)).
Proof.
  intro H.
  destruct (emitted_parts _ _ H) as (kvs & usage & listed & -> & Hu & Hl & Hp).
  apply normalize_parts_inr in Hp.
  destruct Hp as (n & entries & cls & sn & rk & lk & an
                  & Hn & Hi & He & Hs & Hk & Hlk & Ha & Hc).
  pose proof (create_inr _ _ _ _ _ _ Hc) as (Vs & Vk & Vl & Va & Vc).
  split; [| split; [| split]].
  - destruct (emitted_names _ _ H) as (u & name & Hu0 & Hn0 & Hsn & Hrk).
    exists (JObj u), name. auto.
  - exists (Some (taxon_url ++ "None")). unfold without_id.
    rewrite (normalize_item_parts _ _ listed (usage_in_usage "id" _ _ Hu))
      by (rewrite listed_in_usage; exact Hl).
    eapply normalize_parts_ok; eauto.
    + rewrite dict_get_del_other by reflexivity. exact Hn.
    + unfold link_text. simpl. rewrite assoc_del_same. reflexivity.
    + unfold accepted_name. rewrite dict_get_del_other by reflexivity. exact Ha.
    + apply create_ok; auto.
  - unfold without_accepted.
    rewrite (normalize_item_parts _ _ listed (usage_in_usage "accepted" _ _ Hu))
      by (rewrite listed_in_usage; exact Hl).
    eapply normalize_parts_ok; eauto.
    + rewrite dict_get_del_other by reflexivity. exact Hn.
    + unfold link_text. rewrite dict_get_del_other by reflexivity. exact Hlk.
    + unfold accepted_name. simpl. rewrite assoc_del_same. reflexivity.
    + apply create_ok; auto.
  - assert (Hu' : dict_get (without_classification (JObj kvs)) "usage" (JObj [])
                  = inr (JObj usage))
      by (unfold without_classification, drop_key;
          rewrite dict_get_del_other by reflexivity; exact Hu).
    assert (Hl' : dict_get (without_classification (JObj kvs)) "classification"
                    (JArr []) = inr (JArr []))
      by (simpl; rewrite assoc_del_same; reflexivity).
    rewrite (normalize_item_parts _ _ _ Hu' Hl').
    apply (normalize_parts_ok _ _ n [] [] sn rk lk an); auto.
    apply create_ok; auto.
Qed.

Lemma required_and_optional_fields_witness :
  (exists usage name,
     dict_get lion "usage" (JObj []) = inr usage
     /\ dict_get usage "name" (JObj []) = inr (JObj name)
     /\ assoc "scientificName" name = Some (JStr "Panthera leo")
     /\ assoc "rank" name = Some (JStr "species"))
  /\ (exists l, normalize_item (without_id lion) = inr (inr (set_link l lion_entity)))
  /\ normalize_item (without_accepted lion)
     = inr (inr (set_acceptedName None lion_entity))
  /\ normalize_item (without_classification lion)
     = inr (inr (set_classification None lion_entity)).
Proof.
  apply (required_and_optional_fields lion lion_entity). reflexivity.
Defined.

(** ** The envelope of a payload *)

Lemma entry_names_dicts (entries : list json) :
  forallb is_dict entries = true -> exists names, entry_names entries = inr names.
Proof.
  induction entries as [| entry rest IH]; simpl; intro H.
  - exists []. reflexivity.
  - apply andb_prop in H. destruct H as [Hd Hrest].
    destruct entry; try discriminate Hd.
    destruct (IH Hrest) as [names Hn]. simpl. rewrite Hn. simpl.
    eexists. reflexivity.
Qed.

Lemma item_shape_fields (item : json) :
  item_shape item = true -> exists x, normalize_item item = inr x.
Proof.
  destruct item as [| | | | | kvs]; simpl; try discriminate.
  intro H. apply andb_prop in H. destruct H as [Hu Hc].
  unfold normalize_item, item_fields. simpl.
  assert (Husage : exists u, match assoc "usage" kvs with
                             | Some v => v
                             | None => JObj []
                             end = JObj u).
  { destruct (assoc "usage" kvs) as [v |]; [| eexists; reflexivity].
    destruct v; try discriminate Hu. eexists; reflexivity. }
  destruct Husage as [u ->]. simpl.
  assert (Hentries : exists names,
             ebind (py_iter match assoc "classification" kvs with
                            | Some v => v
                            | None => JArr []
                            end) entry_names = inr names).
  { destruct (assoc "classification" kvs) as [v |].
    - destruct v; try discriminate Hc. simpl. apply entry_names_dicts. exact Hc.
    - exists []. reflexivity. }
  destruct Hentries as [names Hnames].
  destruct (py_iter match assoc "classification" kvs with
                    | Some v => v
                    | None => JArr []
                    end) as [e | entries]; [discriminate Hnames |].
  simpl in Hnames |- *. rewrite Hnames. simpl. eexists. reflexivity.
Qed.

Lemma lacking_not_kept (item : json) :
  lacks_required item = true -> kept item = [].
Proof.
  intro Hlack. unfold kept.
  destruct (normalize_item item) as [e | [e | r]] eqn:E; try reflexivity.
  exfalso.
  destruct (emitted_names _ _ E) as (usage & name & Hu & Hn & Hs & Hk).
  destruct (dict_get_inr _ _ _ _ Hu) as (kvs & -> & Hu').
  simpl in Hn. unfold ok in Hn.
  unfold lacks_required, name_object in Hlack.
  destruct (assoc "usage" kvs) as [v |].
  - subst v.
    destruct (assoc "name" usage) as [v |].
    + assert (v = JObj name) by congruence. subst v.
      rewrite Hs, Hk in Hlack. discriminate.
    + assert (name = []) by congruence. subst name. discriminate Hs.
  - assert (usage = []) by congruence. subst usage. simpl in Hn.
    assert (name = []) by congruence. subst name. discriminate Hs.
Qed.

Lemma survivors_without_lacking (items : list json) :
  survivors items
  = survivors (filter (fun item => negb (lacks_required item)) items).
Proof.
  unfold survivors.
  induction items as [| item rest IH]; simpl; [reflexivity |].
  destruct (lacks_required item) eqn:E; simpl.
  - rewrite (lacking_not_kept _ E). exact IH.
  - rewrite IH. reflexivity.
Qed.

Lemma structured_response_200 (response : Response) (data items : json)
    (total : json) (entries : list json) (env : Env) :
  status_code response = 200 ->
  json_body response = inr data ->
  dict_get data "total" (JNum 0) = inr total ->
  dict_get data "result" (JArr []) = inr items ->
  py_iter items = inr entries ->
  structured_response response env =
  match normalize entries [] env with
  | (inl e, env') => (inl e, env')
  | (inr results, env') =>
      (ColResponse.create results (url response) total, env')
  end.
Proof.
  intros Hs Hb Ht Hr Hi.
  unfold structured_response, parse_response, bind, lift, ret.
  rewrite Hs. simpl. rewrite Hb, Ht, Hr, Hi.
  destruct (normalize entries [] env) as [[e | results] env']; reflexivity.
Qed.

(** On a payload of the search API's shape, every element that lacks
    scientificName or rank in its name object is left out of the
    results with one diagnostic, the loop goes on to the end of the
    list, and the envelope's total is the payload's total whatever was
    left out. *)
Theorem malformed_elements_are_excluded (response : Response)
    (data : list (string * json)) (items : list json) (total : Z) (env : Env) :
  status_code response = 200 ->
  json_body response = inr (JObj data) ->
  dict_get (JObj data) "total" (JNum 0) = inr (JNum total) ->
  dict_get (JObj data) "result" (JArr []) = inr (JArr items) ->
  forallb item_shape items = true ->
  structured_response response env
  = (inr (ColResponse.mk (survivors items) (url response) total),
     mkEnv (console env ++ diagnostics items) (csv_file env))
  /\ survivors items
     = survivors (filter (fun item => negb (lacks_required item)) items)
  /\ (forall item, In item items -> lacks_required item = true ->
        kept item = [] /\ exists e, skipped item = [PrintSkip e]).
Proof.
  intros Hs Hb Ht Hr Hshape.
  assert (Hok : forall item, In item items ->
                             exists x, normalize_item item = inr x).
  { intros item Hin. apply item_shape_fields.
    rewrite forallb_forall in Hshape. apply Hshape. exact Hin. }
  split; [| split].
  - rewrite (structured_response_200 response (JObj data) (JArr items)
               (JNum total) items env Hs Hb Ht Hr eq_refl).
    rewrite (normalize_total items [] env Hok). reflexivity.
  - apply survivors_without_lacking.
  - intros item Hin Hlack. split; [apply lacking_not_kept; exact Hlack |].
    pose proof (lacking_not_kept _ Hlack) as Hk.
    destruct (Hok item Hin) as [x Hx].
    unfold kept in Hk. unfold skipped. rewrite Hx in Hk |- *.
    destruct x as [e | r]; [exists e; reflexivity | discriminate Hk].
Qed.

Lemma malformed_elements_are_excluded_witness :
  let response := search_result 200 5 five_of_which_three in
  let env := mkEnv [] None in
  exists results,
    structured_response response env
    = (inr (ColResponse.mk results (url response) 5),
       mkEnv [PrintSkip (KeyError "scientificName"); PrintSkip (KeyError "rank")]
             None)
    /\ results = [lion_entity;
                  NameInfo.mk "Panthera tigris" "species"
                    (Some "https://www.catalogueoflife.org/data/taxon/4CGXS")
                    (Some "Panthera tigris") None;
                  synonym_entity]
    /\ List.length results = 3%nat.
Proof.
  intros response env.
  exists (survivors five_of_which_three).
  split; [| split; reflexivity].
  exact (proj1 (malformed_elements_are_excluded response
                  [("total", JNum 5); ("result", JArr five_of_which_three)]
                  five_of_which_three 5 env
                  eq_refl eq_refl eq_refl eq_refl eq_refl)).
Defined.

(** Lines 80-82 are not under the [try]: an element outside the shape,
    here one whose classification is null, ends the loop and the run
    with it. *)
Example null_classification_ends_loop :
  structured_response (search_result 200 2 [null_classification; lion])
    (mkEnv [prompt] None)
  = (inl TypeError, mkEnv [prompt] None).
Proof. reflexivity. Qed.

(** C2: an element that lacks scientificName and rank is not always
    left out with the batch going on. Lines 80-82 read the element
    before the [try] begins, so a nameless element whose classification
    or usage is null raises there: the loop ends, the entities gathered
    before it are lost, no envelope is built and the run ends with the
    exception, the elements after it never looked at. *)
Theorem malformed_element_ends_batch :
  lacks_required null_classification = true
  /\ lacks_required null_usage = true
  /\ structured_response (search_result 200 5 [lion; null_classification; tiger])
       (mkEnv [prompt] None)
     = (inl TypeError, mkEnv [prompt] None)
  /\ structured_response (search_result 200 5 [lion; null_usage; tiger])
       (mkEnv [prompt] None)
     = (inl (AttributeError "get"), mkEnv [prompt] None)
  /\ run aborting_batch_world = (inl TypeError, mkEnv [prompt] None).
Proof. repeat split; reflexivity. Qed.

(** ** The stages of a run and what they leave behind *)

Lemma prefix_append (p s : string) : String.prefix p (p ++ s) = true.
Proof.
  induction p as [| c p IH]; simpl.
  - destruct s; reflexivity.
  - destruct (ascii_dec c c) as [_ | Hne]; [exact IH | contradiction].
Qed.

Lemma api_failed_is_diagnostic (status : Z) :
  is_diagnostic (api_failed status) = true.
Proof. unfold api_failed, is_diagnostic. apply prefix_append. Qed.

Lemma is_skip_is_diagnostic (evs : list event) :
  forallb is_skip evs = true -> forallb is_diagnostic evs = true.
Proof.
  induction evs as [| ev rest IH]; simpl; [reflexivity |].
  intro H. apply andb_prop in H. destruct H as [Hs Hr].
  destruct ev; try discriminate Hs. simpl. apply IH. exact Hr.
Qed.

Lemma structured_response_failed (response : Response) (env : Env) :
  status_code response <> 200 ->
  structured_response response env
  = (inr (ColResponse.mk [] (url response) 0),
     mkEnv (console env ++ [api_failed (status_code response)]) (csv_file env)).
Proof.
  intro Hs. apply Z.eqb_neq in Hs.
  unfold structured_response, parse_response, bind. rewrite Hs. reflexivity.
Qed.

Lemma structured_response_effects (response : Response) (env : Env) x env' :
  structured_response response env = (x, env') ->
  csv_file env' = csv_file env
  /\ exists evs, console env' = (console env ++ evs)%list
                 /\ forallb is_diagnostic evs = true.
Proof.
  destruct (Z.eq_dec (status_code response) 200) as [Hs | Hs].
  - unfold structured_response, parse_response, bind, lift, ret.
    apply Z.eqb_eq in Hs. rewrite Hs.
    assert (Hsame : csv_file env = csv_file env
                    /\ exists evs, console env = (console env ++ evs)%list
                                   /\ forallb is_diagnostic evs = true)
      by (split; [reflexivity | exists []; rewrite app_nil_r; auto]).
    destruct (json_body response) as [e | data];
      [intro H; inversion H; subst; exact Hsame |].
    destruct (dict_get data "total" (JNum 0)) as [e | total];
      [intro H; inversion H; subst; exact Hsame |].
    destruct (dict_get data "result" (JArr [])) as [e | listed];
      [intro H; inversion H; subst; exact Hsame |].
    destruct (py_iter listed) as [e | items];
      [intro H; inversion H; subst; exact Hsame |].
    destruct (normalize items [] env) as [[e | results] env1] eqn:En;
      apply normalize_effects in En; destruct En as (Hc & evs & Hev & Hall);
      apply is_skip_is_diagnostic in Hall;
      intro H; inversion H; subst; (split; [exact Hc | exists evs; auto]).
  - rewrite (structured_response_failed _ _ Hs). intro H. inversion H; subst.
    simpl. split; [reflexivity |].
    exists [api_failed (status_code response)]. split; [reflexivity |].
    change (is_diagnostic (api_failed (status_code response)) && true = true).
    rewrite api_failed_is_diagnostic. reflexivity.
Qed.

Lemma print_results_run (results : list NameInfo.t) : forall (i : nat) (env : Env),
  print_results i results env
  = (inr tt, mkEnv (console env ++ report_lines i results) (csv_file env)).
Proof.
  induction results as [| result rest IH]; intros i env; simpl.
  - unfold ret, ok. rewrite app_nil_r, env_eta. reflexivity.
  - unfold bind, print, emit. simpl. rewrite IH. simpl.
    rewrite <- app_assoc. reflexivity.
Qed.

Lemma report_run (sr : ColResponse.t) (choices : list (option string)) (env : Env) :
  report sr choices env =
  match summary_text choices with
  | inl e => (inl e, mkEnv (console env ++ report_head sr) (csv_file env))
  | inr summary =>
      (inr tt,
       mkEnv (console env ++ report_head sr ++ [Print summary; Print nl])
             (csv_file env))
  end.
Proof.
  unfold report, report_head, bind, print, emit, lift. simpl.
  rewrite print_results_run. simpl.
  destruct (summary_text choices) as [e | summary]; simpl;
    repeat (rewrite <- app_assoc; simpl); reflexivity.
Qed.

Lemma export_run (sr : ColResponse.t) (env : Env) :
  export sr env =
  if 0 <? ColResponse.total sr
  then (inr tt,
        mkEnv (console env ++ [saved])
              (Some (csv_header :: map csv_row (ColResponse.results sr))))
  else (inr tt, env).
Proof.
  unfold export. destruct (0 <? ColResponse.total sr); reflexivity.
Qed.

(** The run, once the query is interpreted and the search answered. *)
Lemma run_stages (w : World) (qp : CoLQueryParams.t) (response : Response) :
  interpret w (input w) = inr qp ->
  requests_get w col_base_url (params qp) = inr response ->
  run w =
  match structured_response response (mkEnv [prompt] None) with
  | (inl e, env1) => (inl e, env1)
  | (inr sr, env1) =>
      match chat_summary w sr with
      | inl e => (inl e, env1)
      | inr choices =>
          match report sr choices env1 with
          | (inl e, env2) => (inl e, env2)
          | (inr _, env2) =>
              match export sr env2 with
              | (inl e, env3) => (inl e, env3)
              | (inr _, env3) => (inr sr, env3)
              end
          end
      end
  end.
Proof.
  intros Hi Hg. unfold run, main, bind, lift, emit, ret. simpl.
  rewrite Hi, Hg. fold prompt.
  destruct (structured_response response (mkEnv [prompt] None))
    as [[e | sr] env1]; [reflexivity |].
  destruct (chat_summary w sr) as [e | choices]; [reflexivity |].
  destruct (report sr choices env1) as [[e | u] env2]; [reflexivity |].
  destruct (export sr env2) as [[e | u'] env3]; reflexivity.
Qed.

(** A run that ends normally went through every stage. *)
Lemma run_inr (w : World) (sr : ColResponse.t) (env' : Env) :
  run w = (inr sr, env') ->
  exists qp response env1 choices env2,
    interpret w (input w) = inr qp
    /\ requests_get w col_base_url (params qp) = inr response
    /\ structured_response response (mkEnv [prompt] None) = (inr sr, env1)
    /\ chat_summary w sr = inr choices
    /\ report sr choices env1 = (inr tt, env2)
    /\ export sr env2 = (inr tt, env').
Proof.
  intro H.
  destruct (interpret w (input w)) as [e | qp] eqn:Hi.
  { unfold run, main, bind, lift, emit in H. simpl in H. rewrite Hi in H.
    discriminate H. }
  destruct (requests_get w col_base_url (params qp)) as [e | response] eqn:Hg.
  { unfold run, main, bind, lift, emit in H. simpl in H. rewrite Hi, Hg in H.
    discriminate H. }
  rewrite (run_stages w qp response Hi Hg) in H.
  destruct (structured_response response (mkEnv [prompt] None))
    as [[e | sr1] env1] eqn:Es; [discriminate H |].
  destruct (chat_summary w sr1) as [e | choices] eqn:Ec; [discriminate H |].
  destruct (report sr1 choices env1) as [[e | []] env2] eqn:Er; [discriminate H |].
  destruct (export sr1 env2) as [[e | []] env3] eqn:Ee; [discriminate H |].
  assert (sr1 = sr) by congruence. assert (env3 = env') by congruence. subst.
  exists qp, response, env1, choices, env2. auto 10.
Qed.

(** ** Failure of the summary call *)

(** C4, as stated, fails: the summary call is made before anything of
    the report is printed and nothing catches what it raises, so the
    run ends with that exception, without report and without export. *)
Lemma summary_failure_ends_run :
  run summary_down_world
  = (inl (ServiceError "summary"),
     mkEnv [prompt; PrintSkip (KeyError "scientificName")] None).
Proof. reflexivity. Qed.

(** C4, amended: if the generation service fails on the summary call,
    the failure ends the run; the console holds the prompt and the
    diagnostics of the search and the normalization only, and no
    export file is written. *)
Theorem summary_failure_propagates (w : World) (qp : CoLQueryParams.t)
    (response : Response) (sr : ColResponse.t) (env1 : Env) (e : exn) :
  interpret w (input w) = inr qp ->
  requests_get w col_base_url (params qp) = inr response ->
  structured_response response (mkEnv [prompt] None) = (inr sr, env1) ->
  chat_summary w sr = inl e ->
  run w = (inl e, env1)
  /\ csv_file env1 = None
  /\ exists evs, console env1 = prompt :: evs
                 /\ forallb is_diagnostic evs = true.
Proof.
  intros Hi Hg Hs Hc.
  split.
  - rewrite (run_stages w qp response Hi Hg), Hs, Hc. reflexivity.
  - apply structured_response_effects in Hs.
    destruct Hs as (Hcsv & evs & Hev & Hall). simpl in Hcsv, Hev.
    split; [exact Hcsv | exists evs; auto].
Qed.

Lemma summary_failure_propagates_witness :
  run summary_down_world
  = (inl (ServiceError "summary"),
     mkEnv [prompt; PrintSkip (KeyError "scientificName")] None)
  /\ csv_file (mkEnv [prompt; PrintSkip (KeyError "scientificName")] None) = None
  /\ exists evs,
       console (mkEnv [prompt; PrintSkip (KeyError "scientificName")] None)
       = prompt :: evs
       /\ forallb is_diagnostic evs = true.
Proof.
  apply (summary_failure_propagates summary_down_world
           (CoLQueryParams.mk "Panthera" None (Some 10))
           (search_result 200 2 [lion; nameless])
           (ColResponse.mk [lion_entity] search_url 2));
    reflexivity.
Defined.

(** ** Failure of the search *)

(** C6: when the search API answers with any status other than 200,
    the run prints "API call failed: <status>", builds the envelope
    with no results and total 0, writes no export file whatever the
    summary call does, and, the summary call answering, goes on to the
    end and prints the report. *)
Theorem search_failure_is_recoverable (w : World) (qp : CoLQueryParams.t)
    (response : Response) :
  interpret w (input w) = inr qp ->
  requests_get w col_base_url (params qp) = inr response ->
  status_code response <> 200 ->
  structured_response response (mkEnv [prompt] None)
  = (inr (ColResponse.mk [] (url response) 0),
     mkEnv [prompt; api_failed (status_code response)] None)
  /\ csv_file (snd (run w)) = None
  /\ (exists rest,
        console (snd (run w))
        = prompt :: api_failed (status_code response) :: rest)
  /\ (forall choices summary,
        chat_summary w (ColResponse.mk [] (url response) 0) = inr choices ->
        summary_text choices = inr summary ->
        run w
        = (inr (ColResponse.mk [] (url response) 0),
           mkEnv [prompt;
                  api_failed (status_code response);
                  Print (nl ++ "✅ Structured Catalogue of Life Results");
                  Print "Total matching records: 0";
                  Print ("Query URL: " ++ url response);
                  Print "Results:";
                  Print (nl ++ "🧠 GPT Summary:");
                  Print summary;
                  Print nl]
                 None)).
Proof.
  intros Hi Hg Hs.
  pose proof (structured_response_failed response (mkEnv [prompt] None) Hs) as Hsr.
  simpl in Hsr.
  pose proof (run_stages w qp response Hi Hg) as Hrun. rewrite Hsr in Hrun.
  split; [exact Hsr |].
  split; [| split].
  - rewrite Hrun.
    destruct (chat_summary w _) as [e | choices]; [reflexivity |].
    rewrite report_run.
    destruct (summary_text choices) as [e | summary]; reflexivity.
  - rewrite Hrun.
    destruct (chat_summary w _) as [e | choices]; [eexists; reflexivity |].
    rewrite report_run.
    destruct (summary_text choices) as [e | summary]; eexists; reflexivity.
  - intros choices summary Hc Ht. rewrite Hrun, Hc, report_run, Ht. reflexivity.
Qed.

Lemma search_failure_is_recoverable_witness :
  run search_down_world
  = (inr (ColResponse.mk [] (search_url) 0),
     mkEnv [prompt;
            Print "API call failed: 500";
            Print (nl ++ "✅ Structured Catalogue of Life Results");
            Print "Total matching records: 0";
            Print ("Query URL: " ++ search_url);
            Print "Results:";
            Print (nl ++ "🧠 GPT Summary:");
            Print "No records were returned.";
            Print nl]
           None).
Proof.
  exact (proj2 (proj2 (proj2
           (search_failure_is_recoverable search_down_world
              (CoLQueryParams.mk "Panthera" None (Some 10))
              (search_result 500 2 [lion; nameless])
              eq_refl eq_refl
              ltac:(simpl; discriminate))))
           [Some "  No records were returned.  "] "No records were returned."
           eq_refl eq_refl).
Defined.

(** ** The export step *)

(** C10: the export step writes the file exactly when the envelope's
    total is positive: header and one row per result, the header alone
    when no element survived normalization; with a total of 0 nothing
    is written. A run that reaches its end leaves the file so. *)
Theorem export_iff_total_positive (sr : ColResponse.t) :
  (forall env, 0 < ColResponse.total sr ->
     csv_file (snd (export sr env))
     = Some (csv_header :: map csv_row (ColResponse.results sr)))
  /\ (forall env, 0 < ColResponse.total sr -> ColResponse.results sr = [] ->
        csv_file (snd (export sr env)) = Some [csv_header])
  /\ (forall env, ColResponse.total sr = 0 -> export sr env = (inr tt, env))
  /\ (forall w env', run w = (inr sr, env') ->
        csv_file env'
        = if 0 <? ColResponse.total sr
          then Some (csv_header :: map csv_row (ColResponse.results sr))
          else None).
Proof.
  split; [| split; [| split]].
  - intros env Hpos. rewrite export_run.
    apply Z.ltb_lt in Hpos. rewrite Hpos. reflexivity.
  - intros env Hpos Hnone. rewrite export_run.
    apply Z.ltb_lt in Hpos. rewrite Hpos, Hnone. reflexivity.
  - intros env Hzero. rewrite export_run, Hzero. reflexivity.
  - intros w env' H.
    destruct (run_inr _ _ _ H)
      as (qp & response & env1 & choices & env2 & _ & _ & Hs & _ & Hr & He).
    apply structured_response_effects in Hs. destruct Hs as (Hcsv1 & _).
    simpl in Hcsv1.
    assert (Hcsv2 : csv_file env2 = None).
    { rewrite report_run in Hr.
      destruct (summary_text choices); [discriminate Hr |].
      inversion Hr; subst. simpl. exact Hcsv1. }
    rewrite export_run in He.
    destruct (0 <? ColResponse.total sr); inversion He; subst;
      [reflexivity | exact Hcsv2].
Qed.

Lemma header_only_export :
  run all_malformed_world
  = (inr (ColResponse.mk [] (search_url) 5),
     mkEnv [prompt;
            PrintSkip (KeyError "scientificName");
            PrintSkip (KeyError "rank");
            Print (nl ++ "✅ Structured Catalogue of Life Results");
            Print "Total matching records: 5";
            Print ("Query URL: " ++ search_url);
            Print "Results:";
            Print (nl ++ "🧠 GPT Summary:");
            Print "Nothing could be read.";
            Print nl;
            saved]
           (Some [csv_header])).
Proof. reflexivity. Qed.

(** ** A whole run *)

(** Scenario A of the specification, from the prompt to the export. *)
Example scenario_A :
  run scenario_A_world
  = (inr (ColResponse.mk [lion_entity] search_url 2),
     mkEnv [prompt;
            PrintSkip (KeyError "scientificName");
            Print (nl ++ "✅ Structured Catalogue of Life Results");
            Print "Total matching records: 2";
            Print ("Query URL: " ++ search_url);
            Print "Results:";
            Print ("1. Panthera leo (species) - "
                   ++ "https://www.catalogueoflife.org/data/taxon/ABC"
                   ++ " | Classification: Animalia > Felidae");
            Print (nl ++ "🧠 GPT Summary:");
            Print "One lion.";
            Print nl;
            saved]
           (Some [csv_header;
                  ["Panthera leo"; "species";
                   "https://www.catalogueoflife.org/data/taxon/ABC"; "";
                   "Animalia > Felidae"]])).
Proof. reflexivity. Qed.

(** * Further properties of the script *)

(** ** Failures before the response *)

Lemma interpretation_failure_aux (w : World) (e : exn) :
  interpret w (input w) = inl e ->
  run w = (inl e, mkEnv [prompt] None).
Proof.
  intro H. unfold run, main, bind, lift, emit. simpl. rewrite H. reflexivity.
Qed.

Lemma request_failure_aux (w : World) (qp : CoLQueryParams.t) (e : exn) :
  interpret w (input w) = inr qp ->
  requests_get w col_base_url (params qp) = inl e ->
  run w = (inl e, mkEnv [prompt] None).
Proof.
  intros Hi Hg. unfold run, main, bind, lift, emit. simpl.
  rewrite Hi. simpl. rewrite Hg. reflexivity.
Qed.



(** X2: when [requests.get] raises, the run ends with that exception
    after the prompt; the status branch is never entered, so not even
    the "API call failed" line is printed. *)
Theorem request_failure_ends_run (w : World) (qp : CoLQueryParams.t) (e : exn) :
  interpret w (input w) = inr qp ->
  requests_get w col_base_url (params qp) = inl e ->
  run w = (inl e, mkEnv [prompt] None).
Proof.
  intros Hi Hg. unfold run, main, bind, lift, emit. simpl.
  rewrite Hi. simpl. rewrite Hg. reflexivity.
Qed.

Lemma request_failure_ends_run_witness :
  run request_down_world = (inl (ServiceError "offline"), mkEnv [prompt] None).
Proof.
  apply (request_failure_ends_run request_down_world
           (CoLQueryParams.mk "Panthera" None (Some 10)));
    reflexivity.
Defined.

(** ** The request *)

(** X3: the request carries the keyword as interpreted, never an empty
    rank and never a limit of 0; a rank that is not empty and a limit
    that is not 0 (a negative one too) are sent as they are. *)
Theorem request_is_never_falsy (qp : CoLQueryParams.t) :
  Params.q (params qp) = CoLQueryParams.q qp
  /\ Params.rank (params qp) <> ""
  /\ Params.limit (params qp) <> 0
  /\ (forall s, CoLQueryParams.rank qp = Some s -> s <> "" ->
        Params.rank (params qp) = s)
  /\ (forall n, CoLQueryParams.limit qp = Some n -> n <> 0 ->
        Params.limit (params qp) = n).
Proof.
  destruct qp as [k r l]. unfold params, str_or, int_or. simpl.
  split; [reflexivity |]. split; [| split; [| split]].
  - destruct r as [s |]; [| discriminate].
    destruct (String.eqb s "") eqn:E; [discriminate |].
    apply String.eqb_neq in E. exact E.
  - destruct l as [n |]; [| discriminate].
    destruct (n =? 0) eqn:E; [discriminate |].
    apply Z.eqb_neq in E. exact E.
  - intros s Hs Hne. inversion Hs; subst.
    apply String.eqb_neq in Hne. rewrite Hne. reflexivity.
  - intros n Hn Hne. inversion Hn; subst.
    apply Z.eqb_neq in Hne. rewrite Hne. reflexivity.
Qed.

(** X4: a reply that names a keyword and leaves [rank] and [limit] out,
    or gives them as null, is accepted, and the request is made for
    that keyword with rank "species" and limit 10: the default of the
    model and the default at the request agree. *)
Theorem bare_keyword_request (w : World) (user_message : string)
    (kvs : list (string * json)) (keyword : string) :
  chat_structured w query_instructions user_message = inr (JObj kvs) ->
  assoc "q" kvs = Some (JStr keyword) ->
  absent_or_null "rank" kvs = true ->
  absent_or_null "limit" kvs = true ->
  exists qp,
    interpret w user_message = inr qp
    /\ params qp = Params.mk keyword "species" 10.
Proof.
  unfold absent_or_null, interpret. intros Hr Hq Hrank Hlimit.
  rewrite Hr. simpl. rewrite Hq. simpl.
  destruct (assoc "rank" kvs) as [r |];
    [destruct r; try discriminate Hrank |];
    (destruct (assoc "limit" kvs) as [l |];
     [destruct l; try discriminate Hlimit |]);
    simpl; eexists; split; reflexivity.
Qed.

Lemma bare_keyword_request_witness :
  exists qp,
    interpret bare_keyword_world "lions" = inr qp
    /\ params qp = Params.mk "Panthera" "species" 10.
Proof.
  apply (bare_keyword_request bare_keyword_world "lions"
           [("q", JStr "Panthera"); ("rank", JNull)]);
    reflexivity.
Defined.

(** ** The loop as a whole *)

Lemma normalize_inr_all items : forall results env results' env',
  normalize items results env = (inr results', env') ->
  forall item, In item items -> exists x, normalize_item item = inr x.
Proof.
  induction items as [| first rest IH]; intros results env results' env' H item Hin.
  - destruct Hin.
  - rewrite normalize_step in H.
    destruct (normalize_item first) as [e | x] eqn:E; [discriminate H |].
    destruct Hin as [<- | Hin]; [exists x; exact E |].
    destruct x as [e | r]; eapply IH; eauto.
Qed.

Lemma kept_or_skipped (items : list json) :
  (forall item, In item items -> exists x, normalize_item item = inr x) ->
  (List.length (survivors items) + List.length (diagnostics items))%nat
  = List.length items.
Proof.
  unfold survivors, diagnostics.
  induction items as [| item rest IH]; intro Hok; [reflexivity |].
  simpl. rewrite !length_app.
  assert (Hrest : forall i, In i rest -> exists y, normalize_item i = inr y)
    by (intros i Hi; apply Hok; right; exact Hi).
  specialize (IH Hrest).
  destruct (Hok item (or_introl eq_refl)) as [x Hx].
  assert (Hone : (List.length (kept item) + List.length (skipped item))%nat = 1%nat)
    by (unfold kept, skipped; rewrite Hx; destruct x; reflexivity).
  lia.
Qed.

(** X5: when the loop comes to its end, every element of the list is
    accounted for exactly once: it added one entity to the results or
    one skip diagnostic to the console. The results the loop started
    with are kept in front, and the export file is not touched. *)
Theorem every_element_accounted_for (items : list json)
    (results results' : list NameInfo.t) (env env' : Env) :
  normalize items results env = (inr results', env') ->
  exists added printed,
    results' = (results ++ added)%list
    /\ console env' = (console env ++ printed)%list
    /\ forallb is_skip printed = true
    /\ (List.length added + List.length printed)%nat = List.length items
    /\ csv_file env' = csv_file env.
Proof.
  intro H.
  pose proof (normalize_inr_all _ _ _ _ _ H) as Hok.
  rewrite (normalize_total items results env Hok) in H.
  inversion H; subst. simpl.
  exists (survivors items), (diagnostics items).
  split; [reflexivity |]. split; [reflexivity |].
  split; [| split; [apply kept_or_skipped; exact Hok | reflexivity]].
  clear H. unfold diagnostics.
  induction items as [| item rest IH]; [reflexivity |].
  simpl. rewrite forallb_app. rewrite IH.
  - unfold skipped. destruct (normalize_item item) as [e | [e | r]]; reflexivity.
  - intros i Hi. apply Hok. right. exact Hi.
Qed.

Lemma every_element_accounted_for_witness :
  exists added printed,
    survivors five_of_which_three = ([] ++ added)%list
    /\ console (mkEnv (diagnostics five_of_which_three) None)
       = (console (mkEnv [] None) ++ printed)%list
    /\ forallb is_skip printed = true
    /\ (List.length added + List.length printed)%nat
       = List.length five_of_which_three
    /\ csv_file (mkEnv (diagnostics five_of_which_three) None)
       = csv_file (mkEnv [] None).
Proof.
  apply (every_element_accounted_for five_of_which_three []
           (survivors five_of_which_three) (mkEnv [] None)).
  reflexivity.
Defined.

(** X6: the loop over a list in two parts is the loop over the first
    part followed, if that did not raise, by the loop over the second
    part started from the results and the console the first part left. *)
Theorem normalize_app (xs ys : list json) : forall results env,
  normalize (xs ++ ys) results env =
  match normalize xs results env with
  | (inl e, env1) => (inl e, env1)
  | (inr results1, env1) => normalize ys results1 env1
  end.
Proof.
  induction xs as [| x rest IH]; intros results env.
  - reflexivity.
  - rewrite <- app_comm_cons, !normalize_step.
    destruct (normalize_item x) as [e | [e | r]]; [reflexivity | apply IH | apply IH].
Qed.

(** X7: an element on which lines 80-82 raise ends the loop there: the
    exception leaves the loop, the diagnostics of the elements before it
    are on the console, the elements after it are not looked at, and
    the results gathered so far are not returned. *)
Theorem raising_element_ends_loop (xs ys : list json) (bad : json) (e : exn) :
  forall results env,
  (forall item, In item xs -> exists x, normalize_item item = inr x) ->
  normalize_item bad = inl e ->
  normalize (xs ++ bad :: ys) results env
  = (inl e, mkEnv (console env ++ diagnostics xs) (csv_file env)).
Proof.
  induction xs as [| x rest IH]; intros results env Hok Hbad.
  - simpl app. rewrite normalize_step, Hbad.
    unfold diagnostics. simpl. rewrite app_nil_r, env_eta. reflexivity.
  - rewrite <- app_comm_cons, normalize_step.
    assert (Hrest : forall i, In i rest -> exists y, normalize_item i = inr y)
      by (intros i Hi; apply Hok; right; exact Hi).
    destruct (Hok x (or_introl eq_refl)) as [o Ho].
    unfold diagnostics. simpl flat_map. unfold skipped at 1. rewrite Ho.
    destruct o as [e' | r].
    + rewrite (IH _ _ Hrest Hbad). simpl. rewrite <- app_assoc. reflexivity.
    + rewrite (IH _ _ Hrest Hbad). reflexivity.
Qed.

Lemma raising_element_ends_loop_witness :
  normalize ([lion; nameless] ++ null_classification :: [tiger]) [] (mkEnv [prompt] None)
  = (inl TypeError,
     mkEnv (console (mkEnv [prompt] None) ++ diagnostics [lion; nameless])
           (csv_file (mkEnv [prompt] None))).
Proof.
  apply (raising_element_ends_loop [lion; nameless] [tiger] null_classification
           TypeError [] (mkEnv [prompt] None)).
  - intros item [<- | [<- | []]]; eexists; reflexivity.
  - reflexivity.
Defined.

(** ** Fields of an emitted entity *)

(** X8: every emitted entity has a link, never [None]: the text of a
    URL on the host of the detail pages. The report therefore never
    prints "No link" for an entity, and the Link cell of its row in the
    export is the text of that link, never empty. *)
Theorem emitted_entity_has_link (item : json) (r : NameInfo.t) :
  normalize_item item = inr (inr r) ->
  exists l,
    NameInfo.link r = Some l
    /\ String.prefix "https://www.catalogueoflife.org/" l = true
    /\ l <> ""
    /\ nth 2 (csv_row r) "" = l.
Proof.
  intro H.
  destruct (emitted_parts _ _ H) as (kvs & usage & listed & _ & Hu & _ & _).
  destruct (emitted_link _ _ _ Hu H) as (id & _ & Hlink & _).
  exists (taxon_url ++ py_str id).
  split; [exact Hlink |]. split; [reflexivity |]. split; [discriminate |].
  unfold csv_row. rewrite Hlink. reflexivity.
Qed.

Lemma emitted_entity_has_link_witness :
  exists l,
    NameInfo.link lion_entity = Some l
    /\ String.prefix "https://www.catalogueoflife.org/" l = true
    /\ l <> ""
    /\ nth 2 (csv_row lion_entity) "" = l.
Proof.
  apply (emitted_entity_has_link lion lion_entity). reflexivity.
Defined.

(** X9: when the element holds a string under usage -> accepted ->
    name -> scientificName, the emitted entity has that string as its
    acceptedName. *)
Theorem accepted_name_is_copied (item : json)
    (usage accepted name : list (string * json)) (s : string) (r : NameInfo.t) :
  dict_get item "usage" (JObj []) = inr (JObj usage) ->
  assoc "accepted" usage = Some (JObj accepted) ->
  assoc "name" accepted = Some (JObj name) ->
  assoc "scientificName" name = Some (JStr s) ->
  normalize_item item = inr (inr r) ->
  NameInfo.acceptedName r = Some s.
Proof.
  intros Hu Ha Hn Hs H.
  destruct (emitted_parts _ _ H) as (kvs & u & listed & _ & Hu' & _ & Hp).
  rewrite Hu in Hu'. assert (u = usage) by congruence. subst u.
  apply normalize_parts_inr in Hp.
  destruct Hp as (n & entries & cls & sn & rk & lk & an
                  & _ & _ & _ & _ & _ & _ & Hacc & Hc).
  unfold accepted_name in Hacc. simpl in Hacc.
  rewrite Ha in Hacc. simpl in Hacc. rewrite Hn in Hacc. simpl in Hacc.
  rewrite Hs in Hacc. unfold ok in Hacc.
  assert (an = JStr s) by congruence. subst an.
  apply create_inr in Hc. destruct Hc as (_ & _ & _ & Hv & _).
  simpl in Hv. congruence.
Qed.

Lemma accepted_name_is_copied_witness :
  NameInfo.acceptedName
    (NameInfo.mk "Panthera tigris" "species"
       (Some "https://www.catalogueoflife.org/data/taxon/4CGXS")
       (Some "Panthera tigris") None)
  = Some "Panthera tigris".
Proof.
  apply (accepted_name_is_copied tiger
           [("id", JStr "4CGXS");
            ("name", JObj [("scientificName", JStr "Panthera tigris");
                           ("rank", JStr "species")]);
            ("accepted",
             JObj [("name", JObj [("scientificName", JStr "Panthera tigris")])])]
           [("name", JObj [("scientificName", JStr "Panthera tigris")])]
           [("scientificName", JStr "Panthera tigris")]);
    reflexivity.
Defined.

Lemma validate_all_str (l : list json) (names : list string) :
  validate_all validate_str l = Some names -> l = map JStr names.
Proof.
  revert names. induction l as [| v rest IH]; simpl; intros names H.
  - inversion H. reflexivity.
  - destruct (validate_str v) as [s |] eqn:Ev; [| discriminate H].
    destruct (validate_all validate_str rest) as [r |]; [| discriminate H].
    inversion H; subst. simpl.
    rewrite (validate_str_inr _ _ Ev), (IH r eq_refl). reflexivity.
Qed.

Lemma entry_names_length (entries : list json) : forall names,
  entry_names entries = inr names -> List.length names = List.length entries.
Proof.
  induction entries as [| entry rest IH]; simpl; intros names H.
  - unfold ok in H. inversion H. reflexivity.
  - destruct (dict_get entry "name" JNull); [discriminate H |].
    simpl in H. destruct (entry_names rest) as [e | ns]; [discriminate H |].
    simpl in H. unfold ok in H. inversion H; subst. simpl.
    rewrite (IH ns eq_refl). reflexivity.
Qed.

Lemma validate_listed_inr (l : list json) (o : option (list string)) :
  validate_optional (validate_list validate_str) (JArr l) = Some o ->
  exists names, o = Some names /\ validate_all validate_str l = Some names.
Proof.
  unfold validate_optional, validate_list.
  destruct (validate_all validate_str l) as [names |]; simpl; intro H;
    [| discriminate H].
  exists names. split; congruence.
Qed.

(** X10: when the element's classification is a list that is not
    empty, the emitted entity's classification holds exactly the
    strings found under "name" in its entries, one per entry and in the
    order of the list. *)
Theorem classification_in_order (item : json) (entry : json) (entries : list json)
    (r : NameInfo.t) :
  dict_get item "classification" (JArr []) = inr (JArr (entry :: entries)) ->
  normalize_item item = inr (inr r) ->
  exists names,
    NameInfo.classification r = Some names
    /\ entry_names (entry :: entries) = inr (map JStr names)
    /\ List.length names = S (List.length entries).
Proof.
  intros Hl H.
  destruct (emitted_parts _ _ H) as (kvs & u & listed & _ & _ & Hl' & Hp).
  rewrite Hl in Hl'. assert (listed = JArr (entry :: entries)) by congruence.
  subst listed.
  apply normalize_parts_inr in Hp.
  destruct Hp as (n & es & cls & sn & rk & lk & an
                  & _ & Hi & He & _ & _ & _ & _ & Hc).
  simpl in Hi. unfold ok in Hi.
  assert (es = entry :: entries) by congruence. subst es.
  assert (Hcls : exists c cs, cls = c :: cs).
  { simpl in He. destruct (dict_get entry "name" JNull); [discriminate He |].
    simpl in He. destruct (entry_names entries); [discriminate He |].
    simpl in He. unfold ok in He. inversion He. eauto. }
  destruct Hcls as (c & cs & ->).
  apply create_inr in Hc. destruct Hc as (_ & _ & _ & _ & Hv).
  change (validate_optional (validate_list validate_str) (JArr (c :: cs))
          = Some (NameInfo.classification r)) in Hv.
  apply validate_listed_inr in Hv. destruct Hv as (names & Hnames & Ev).
  exists names. split; [exact Hnames |].
  assert (Hn : c :: cs = map JStr names) by (apply validate_all_str; exact Ev).
  split; [rewrite He, Hn; reflexivity |].
  pose proof (entry_names_length _ _ He) as Hlen.
  rewrite Hn, length_map in Hlen. simpl in Hlen. exact Hlen.
Qed.

Lemma classification_in_order_witness :
  exists names,
    NameInfo.classification lion_entity = Some names
    /\ entry_names [JObj [("name", JStr "Animalia")];
                    JObj [("name", JStr "Felidae")]]
       = inr (map JStr names)
    /\ List.length names = 2%nat.
Proof.
  apply (classification_in_order lion (JObj [("name", JStr "Animalia")])
           [JObj [("name", JStr "Felidae")]] lion_entity);
    reflexivity.
Defined.

(** X11: an element whose usage holds something other than an object
    under "accepted" (null, say) is never emitted; since the lookup
    stands under the [try], what it raises is caught and the element is
    skipped with a diagnostic, however good its names are. *)
Theorem non_dict_accepted_is_skipped (item : json) (usage : list (string * json))
    (accepted : json) (x : Exc NameInfo.t) :
  dict_get item "usage" (JObj []) = inr (JObj usage) ->
  assoc "accepted" usage = Some accepted ->
  is_dict accepted = false ->
  normalize_item item = inr x ->
  exists e, x = inl e /\ skipped item = [PrintSkip e] /\ kept item = [].
Proof.
  intros Hu Ha Hd H.
  destruct x as [e | r].
  - exists e. unfold skipped, kept. rewrite H. auto.
  - exfalso.
    destruct (emitted_parts _ _ H) as (kvs & u & listed & _ & Hu' & _ & Hp).
    rewrite Hu in Hu'. assert (u = usage) by congruence. subst u.
    apply normalize_parts_inr in Hp.
    destruct Hp as (n & entries & cls & sn & rk & lk & an
                    & _ & _ & _ & _ & _ & _ & Hacc & _).
    unfold accepted_name in Hacc. simpl in Hacc. rewrite Ha in Hacc.
    simpl in Hacc. destruct accepted; simpl in Hacc; discriminate.
Qed.

Lemma non_dict_accepted_is_skipped_witness :
  exists e, @inl exn NameInfo.t (AttributeError "get") = inl e
            /\ skipped null_accepted = [PrintSkip e]
            /\ kept null_accepted = [].
Proof.
  apply (non_dict_accepted_is_skipped null_accepted
           [("id", JStr "ABC");
            ("name", JObj [("scientificName", JStr "Panthera leo");
                           ("rank", JStr "species")]);
            ("accepted", JNull)]
           JNull (inl (AttributeError "get")));
    reflexivity.
Defined.

(** ** Payloads with a key missing or of the wrong kind *)

(** The run from the envelope on. *)
Lemma run_from_envelope (w : World) (qp : CoLQueryParams.t) (response : Response)
    (sr : ColResponse.t) (env1 : Env) :
  interpret w (input w) = inr qp ->
  requests_get w col_base_url (params qp) = inr response ->
  structured_response response (mkEnv [prompt] None) = (inr sr, env1) ->
  run w =
  match chat_summary w sr with
  | inl e => (inl e, env1)
  | inr choices =>
      match summary_text choices with
      | inl e => (inl e, mkEnv (console env1 ++ report_head sr) (csv_file env1))
      | inr summary =>
          if 0 <? ColResponse.total sr
          then (inr sr,
                mkEnv ((console env1 ++ report_head sr ++ [Print summary; Print nl])
                       ++ [saved])
                      (Some (csv_header :: map csv_row (ColResponse.results sr))))
          else (inr sr,
                mkEnv (console env1 ++ report_head sr ++ [Print summary; Print nl])
                      (csv_file env1))
      end
  end.
Proof.
  intros Hi Hg Hs. rewrite (run_stages w qp response Hi Hg), Hs.
  destruct (chat_summary w sr) as [e | choices]; [reflexivity |].
  rewrite report_run.
  destruct (summary_text choices) as [e | summary]; [reflexivity |].
  rewrite export_run.
  destruct (0 <? ColResponse.total sr); reflexivity.
Qed.

Lemma shaped_items_pass (items : list json) :
  forallb item_shape items = true ->
  forall item, In item items -> exists x, normalize_item item = inr x.
Proof.
  intros Hshape item Hin. apply item_shape_fields.
  rewrite forallb_forall in Hshape. apply Hshape. exact Hin.
Qed.

(** X12: a 200 payload without a "total" key gives an envelope with
    total 0, whatever the number of entities that were normalized; the
    report is printed as usual but no export file is written, since
    the export looks at the total and not at the results. *)
Theorem missing_total_means_no_export (w : World) (qp : CoLQueryParams.t)
    (response : Response) (data : list (string * json)) (items : list json) :
  interpret w (input w) = inr qp ->
  requests_get w col_base_url (params qp) = inr response ->
  status_code response = 200 ->
  json_body response = inr (JObj data) ->
  assoc "total" data = None ->
  dict_get (JObj data) "result" (JArr []) = inr (JArr items) ->
  forallb item_shape items = true ->
  structured_response response (mkEnv [prompt] None)
  = (inr (ColResponse.mk (survivors items) (url response) 0),
     mkEnv (prompt :: diagnostics items) None)
  /\ csv_file (snd (run w)) = None.
Proof.
  intros Hi Hg Hs Hb Ht Hr Hshape.
  assert (Htotal : dict_get (JObj data) "total" (JNum 0) = inr (JNum 0))
    by (simpl; rewrite Ht; reflexivity).
  assert (Hsr : structured_response response (mkEnv [prompt] None)
                = (inr (ColResponse.mk (survivors items) (url response) 0),
                   mkEnv (prompt :: diagnostics items) None)).
  { rewrite (structured_response_200 response (JObj data) (JArr items)
               (JNum 0) items _ Hs Hb Htotal Hr eq_refl).
    rewrite (normalize_total items [] _ (shaped_items_pass _ Hshape)).
    reflexivity. }
  split; [exact Hsr |].
  rewrite (run_from_envelope w qp response _ _ Hi Hg Hsr).
  destruct (chat_summary w _) as [e | choices]; [reflexivity |].
  destruct (summary_text choices); reflexivity.
Qed.

Lemma missing_total_means_no_export_witness :
  structured_response
    (mkResponse 200 search_url (ok (JObj [("result", JArr [lion; nameless])])))
    (mkEnv [prompt] None)
  = (inr (ColResponse.mk (survivors [lion; nameless]) search_url 0),
     mkEnv (prompt :: diagnostics [lion; nameless]) None)
  /\ csv_file (snd (run no_total_world)) = None.
Proof.
  apply (missing_total_means_no_export no_total_world
           (CoLQueryParams.mk "Panthera" None (Some 10))
           (mkResponse 200 search_url (ok (JObj [("result", JArr [lion; nameless])])))
           [("result", JArr [lion; nameless])] [lion; nameless]);
    reflexivity.
Defined.

(** X13: a 200 payload whose "total" is null, a list or an object
    makes the envelope fail its validation after the loop has run: the
    skip diagnostics are on the console, the run ends with the
    validation error, and neither report nor export follows. *)
Theorem invalid_total_ends_run (w : World) (qp : CoLQueryParams.t)
    (response : Response) (data : list (string * json)) (total : json)
    (items : list json) :
  interpret w (input w) = inr qp ->
  requests_get w col_base_url (params qp) = inr response ->
  status_code response = 200 ->
  json_body response = inr (JObj data) ->
  dict_get (JObj data) "total" (JNum 0) = inr total ->
  never_an_int total = true ->
  dict_get (JObj data) "result" (JArr []) = inr (JArr items) ->
  forallb item_shape items = true ->
  run w = (inl (ValidationError "ColResponse"),
           mkEnv (prompt :: diagnostics items) None).
Proof.
  intros Hi Hg Hs Hb Ht Hv Hr Hshape.
  assert (Hint : validate_int total = None)
    by (destruct total; try discriminate Hv; reflexivity).
  rewrite (run_stages w qp response Hi Hg).
  rewrite (structured_response_200 response (JObj data) (JArr items)
             total items _ Hs Hb Ht Hr eq_refl).
  rewrite (normalize_total items [] _ (shaped_items_pass _ Hshape)).
  unfold ColResponse.create. rewrite Hint. reflexivity.
Qed.

Lemma invalid_total_ends_run_witness :
  run null_total_world
  = (inl (ValidationError "ColResponse"),
     mkEnv (prompt :: diagnostics [lion; nameless]) None).
Proof.
  apply (invalid_total_ends_run null_total_world
           (CoLQueryParams.mk "Panthera" None (Some 10))
           (mkResponse 200 search_url
              (ok (JObj [("total", JNull); ("result", JArr [lion; nameless])])))
           [("total", JNull); ("result", JArr [lion; nameless])] JNull);
    reflexivity.
Defined.

(** X14: a 200 payload without a "result" key is read as an empty
    list: no element is looked at, nothing is printed, and the envelope
    has no results and the payload's total. *)
Theorem missing_result_is_empty (response : Response) (data : list (string * json))
    (total : Z) (env : Env) :
  status_code response = 200 ->
  json_body response = inr (JObj data) ->
  assoc "result" data = None ->
  dict_get (JObj data) "total" (JNum 0) = inr (JNum total) ->
  structured_response response env
  = (inr (ColResponse.mk [] (url response) total), env).
Proof.
  intros Hs Hb Hr Ht.
  assert (Hres : dict_get (JObj data) "result" (JArr []) = inr (JArr []))
    by (simpl; rewrite Hr; reflexivity).
  rewrite (structured_response_200 response (JObj data) (JArr [])
             (JNum total) [] env Hs Hb Ht Hres eq_refl).
  reflexivity.
Qed.

Lemma missing_result_is_empty_witness :
  structured_response no_result_response (mkEnv [prompt] None)
  = (inr (ColResponse.mk [] (url no_result_response) 7), mkEnv [prompt] None).
Proof.
  apply (missing_result_is_empty no_result_response [("total", JNum 7)]);
    reflexivity.
Defined.

(** ** The summary and the end of the run *)

(** X15: when the summary call answers but its text cannot be read (no
    choice, or a first choice without content), the failure comes
    after the report: total, query URL, entity lines and the summary
    heading are on the console, the run ends with the exception, and
    the export step is not reached, so no file is written even for a
    positive total. *)
Theorem unreadable_summary_ends_run_after_report (w : World)
    (qp : CoLQueryParams.t) (response : Response) (sr : ColResponse.t)
    (env1 : Env) (choices : list (option string)) (e : exn) :
  interpret w (input w) = inr qp ->
  requests_get w col_base_url (params qp) = inr response ->
  structured_response response (mkEnv [prompt] None) = (inr sr, env1) ->
  chat_summary w sr = inr choices ->
  summary_text choices = inl e ->
  run w = (inl e, mkEnv (console env1 ++ report_head sr) None).
Proof.
  intros Hi Hg Hs Hc Ht.
  rewrite (run_from_envelope w qp response sr env1 Hi Hg Hs), Hc, Ht.
  apply structured_response_effects in Hs. destruct Hs as (Hcsv & _).
  simpl in Hcsv. rewrite Hcsv. reflexivity.
Qed.

Lemma unreadable_summary_ends_run_after_report_witness :
  run silent_summary_world
  = (inl (AttributeError "strip"),
     mkEnv (console (mkEnv [prompt; PrintSkip (KeyError "scientificName")] None)
            ++ report_head (ColResponse.mk [lion_entity] search_url 2))
           None).
Proof.
  apply (unreadable_summary_ends_run_after_report silent_summary_world
           (CoLQueryParams.mk "Panthera" None (Some 10))
           (search_result 200 2 [lion; nameless])
           (ColResponse.mk [lion_entity] search_url 2)
           (mkEnv [prompt; PrintSkip (KeyError "scientificName")] None)
           [None]);
    reflexivity.
Defined.

(** X16: a run that ends with an exception, at whatever stage, has
    written no export file: the file is written by the last step only. *)
Theorem aborted_run_writes_nothing (w : World) (e : exn) :
  fst (run w) = inl e -> csv_file (snd (run w)) = None.
Proof.
  intro H.
  destruct (interpret w (input w)) as [e1 | qp] eqn:Hi.
  { rewrite (interpretation_failure_aux w e1 Hi). reflexivity. }
  destruct (requests_get w col_base_url (params qp)) as [e2 | response] eqn:Hg.
  { rewrite (request_failure_aux w qp e2 Hi Hg). reflexivity. }
  destruct (structured_response response (mkEnv [prompt] None))
    as [[e3 | sr] env1] eqn:Hs.
  - rewrite (run_stages w qp response Hi Hg), Hs. simpl.
    apply structured_response_effects in Hs. destruct Hs as (Hcsv & _).
    exact Hcsv.
  - pose proof Hs as Heff. apply structured_response_effects in Heff.
    destruct Heff as (Hcsv & _). simpl in Hcsv.
    rewrite (run_from_envelope w qp response sr env1 Hi Hg Hs) in H |- *.
    destruct (chat_summary w sr) as [e4 | choices]; [exact Hcsv |].
    destruct (summary_text choices) as [e5 | summary]; [exact Hcsv |].
    destruct (0 <? ColResponse.total sr); discriminate H.
Qed.

Lemma aborted_run_writes_nothing_witness :
  csv_file (snd (run silent_summary_world)) = None.
Proof.
  apply (aborted_run_writes_nothing silent_summary_world (AttributeError "strip")).
  reflexivity.
Defined.

(** What a run that ends normally leaves behind. *)
Lemma finished_run_env (w : World) (sr : ColResponse.t) (env' : Env) :
  run w = (inr sr, env') ->
  exists diags summary,
    forallb is_diagnostic diags = true
    /\ env' = mkEnv (prompt :: diags ++ report_head sr
                       ++ [Print summary; Print nl]
                       ++ (if 0 <? ColResponse.total sr then [saved] else []))
                    (if 0 <? ColResponse.total sr
                     then Some (csv_header :: map csv_row (ColResponse.results sr))
                     else None).
Proof.
  intro H.
  destruct (run_inr _ _ _ H)
    as (qp & response & env1 & choices & env2 & Hi & Hg & Hs & Hc & _ & _).
  rewrite (run_from_envelope w qp response sr env1 Hi Hg Hs), Hc in H.
  apply structured_response_effects in Hs.
  destruct Hs as (Hcsv & diags & Hcon & Hall). simpl in Hcsv, Hcon.
  destruct (summary_text choices) as [e | summary]; [discriminate H |].
  exists diags, summary. split; [exact Hall |].
  rewrite Hcon, Hcsv in H.
  destruct (0 <? ColResponse.total sr);
    apply (f_equal snd) in H; cbn [snd] in H; rewrite <- H; f_equal;
    rewrite <- ?app_comm_cons, <- ?app_assoc, ?app_nil_r; reflexivity.
Qed.

(** X17: the console of a run that ends normally reads, in order: the
    prompt; the diagnostics of the search and the loop; the heading,
    the total, the query URL and "Results:"; one line per entity; the
    summary heading, the summary and an empty line; and, only when the
    total is positive, the note that the file was saved. *)
Theorem finished_run_console (w : World) (sr : ColResponse.t) (env' : Env) :
  run w = (inr sr, env') ->
  exists diags summary,
    forallb is_diagnostic diags = true
    /\ console env'
       = prompt :: diags
         ++ [Print (nl ++ "✅ Structured Catalogue of Life Results");
             Print ("Total matching records: " ++ str_Z (ColResponse.total sr));
             Print ("Query URL: " ++ ColResponse.query_url sr);
             Print "Results:"]
         ++ report_lines 1 (ColResponse.results sr)
         ++ [Print (nl ++ "🧠 GPT Summary:"); Print summary; Print nl]
         ++ (if 0 <? ColResponse.total sr then [saved] else []).
Proof.
  intro H. destruct (finished_run_env _ _ _ H) as (diags & summary & Hall & ->).
  exists diags, summary. split; [exact Hall |].
  unfold report_head. simpl. repeat rewrite <- app_assoc. reflexivity.
Qed.

Lemma finished_run_console_witness :
  exists diags summary,
    forallb is_diagnostic diags = true
    /\ console (snd (run scenario_A_world))
       = prompt :: diags
         ++ [Print (nl ++ "✅ Structured Catalogue of Life Results");
             Print ("Total matching records: " ++ str_Z 2);
             Print ("Query URL: " ++ search_url);
             Print "Results:"]
         ++ report_lines 1 [lion_entity]
         ++ [Print (nl ++ "🧠 GPT Summary:"); Print summary; Print nl]
         ++ (if 0 <? 2 then [saved] else []).
Proof.
  apply (finished_run_console scenario_A_world
           (ColResponse.mk [lion_entity] search_url 2)
           (snd (run scenario_A_world))).
  reflexivity.
Defined.

(** X18: the export file of a finished run, when there is one, has one
    row more than the envelope has results, every row, the header
    included, has five cells, and the envelope's total is positive. *)
Theorem export_rows_are_well_formed (w : World) (sr : ColResponse.t) (env' : Env)
    (rows : list (list string)) :
  run w = (inr sr, env') ->
  csv_file env' = Some rows ->
  List.length rows = S (List.length (ColResponse.results sr))
  /\ Forall (fun row => List.length row = 5%nat) rows
  /\ 0 < ColResponse.total sr.
Proof.
  intros H Hrows.
  destruct (finished_run_env _ _ _ H) as (diags & summary & _ & ->).
  simpl in Hrows.
  destruct (0 <? ColResponse.total sr) eqn:Hpos; [| discriminate Hrows].
  inversion Hrows; subst. simpl. rewrite length_map.
  split; [reflexivity |]. split; [| apply Z.ltb_lt; exact Hpos].
  constructor; [reflexivity |].
  apply Forall_forall. intros row Hin. apply in_map_iff in Hin.
  destruct Hin as (r & <- & _). reflexivity.
Qed.

Lemma export_rows_are_well_formed_witness :
  List.length [csv_header; csv_row lion_entity] = S (List.length [lion_entity])
  /\ Forall (fun row => List.length row = 5%nat) [csv_header; csv_row lion_entity]
  /\ 0 < 2.
Proof.
  apply (export_rows_are_well_formed scenario_A_world
           (ColResponse.mk [lion_entity] search_url 2)
           (snd (run scenario_A_world)));
    reflexivity.
Defined.

Lemma report_lines_nth (results : list NameInfo.t) : forall (i k : nat) r,
  nth_error results k = Some r ->
  nth_error (report_lines i results) k = Some (Print (report_line (i + k) r)).
Proof.
  induction results as [| first rest IH]; intros i k r H.
  - destruct k; discriminate H.
  - destruct k as [| k]; simpl in H |- *.
    + inversion H; subst. rewrite Nat.add_0_r. reflexivity.
    + rewrite (IH (S i) k r H). rewrite Nat.add_succ_r. reflexivity.
Qed.

Lemma report_lines_length (results : list NameInfo.t) : forall i,
  List.length (report_lines i results) = List.length results.
Proof.
  induction results as [| first rest IH]; intro i; simpl;
    [reflexivity | rewrite IH; reflexivity].
Qed.

(** X19: the loop of the report never raises and prints one line per
    entity, in the order of the results, the entity at position k
    (counted from 0) being numbered k + 1. *)
Theorem report_lines_are_numbered (results : list NameInfo.t) (env : Env) :
  exists lines,
    print_results 1 results env
    = (inr tt, mkEnv (console env ++ lines) (csv_file env))
    /\ List.length lines = List.length results
    /\ forall k r, nth_error results k = Some r ->
                   nth_error lines k = Some (Print (report_line (S k) r)).
Proof.
  exists (report_lines 1 results).
  split; [apply print_results_run |].
  split; [apply report_lines_length |].
  intros k r H. apply (report_lines_nth results 1 k r H).
Qed.

(** ** The link of an identifier that a URL keeps as it is *)

(** C7, as stated, fails: an element with both names and a string
    identifier can have no link at all. With an identifier of 2041
    letters the text of the f-string is longer than an [HttpUrl] may
    be, the record is rejected and the element is skipped. *)
Lemma overlong_id_is_skipped :
  lacks_required overlong = false
  /\ String.length overlong_id = 2041%nat
  /\ url_safe overlong_id = true
  /\ is_http_url (taxon_url ++ overlong_id) = false
  /\ normalize_item overlong = inr (inl (ValidationError "NameInfo")).
Proof. repeat split; vm_compute; reflexivity. Qed.

(** C7, amended: for an element whose identifier is a string [x] of
    letters, digits, "-" and "_", at most 2040 bytes long, the
    detail-page template followed by [x] is a well-formed http URL
    within the length an [HttpUrl] may have; the element is emitted
    whenever the same element without its identifier is, the
    identifier changing nothing but the link; and whenever it is
    emitted its link is that text. *)
Theorem safe_id_link_round_trip (item : json) (usage : list (string * json))
    (x : string) :
  dict_get item "usage" (JObj []) = inr (JObj usage) ->
  assoc "id" usage = Some (JStr x) ->
  url_safe x = true ->
  Nat.leb (String.length x) 2040 = true ->
  is_http_url (taxon_url ++ x) = true
  /\ (forall r0, normalize_item (without_id item) = inr (inr r0) ->
        normalize_item item = inr (inr (set_link (Some (taxon_url ++ x)) r0)))
  /\ (forall r, normalize_item item = inr (inr r) ->
        NameInfo.link r = Some (taxon_url ++ x)).
Proof.
  intros Hu Hid _ Hlen.
  assert (Hurl : is_http_url (taxon_url ++ x) = true)
    by (rewrite is_http_url_taxon; exact Hlen).
  assert (Hlink : link_text (JObj usage) = inr (taxon_url ++ x))
    by (unfold link_text; simpl; rewrite Hid; reflexivity).
  split; [exact Hurl |]. split.
  - intros r0 H0.
    destruct (dict_get_inr _ _ _ _ Hu) as (kvs & -> & _).
    destruct (dict_get (JObj kvs) "classification" (JArr [])) as [e | listed] eqn:Hl;
      [discriminate Hl |].
    unfold without_id in H0.
    rewrite (normalize_item_parts _ _ listed (usage_in_usage "id" _ _ Hu)) in H0
      by (rewrite listed_in_usage; exact Hl).
    apply normalize_parts_inr in H0.
    destruct H0 as (n & entries & cls & sn & rk & lk & an
                    & Hn & Hi & He & Hs & Hk & _ & Ha & Hc).
    rewrite dict_get_del_other in Hn by reflexivity.
    unfold accepted_name in Ha. rewrite dict_get_del_other in Ha by reflexivity.
    pose proof (create_inr _ _ _ _ _ _ Hc) as (Vs & Vk & _ & Va & Vc).
    rewrite (normalize_item_parts _ _ listed Hu Hl).
    apply (normalize_parts_ok _ _ n entries cls sn rk (taxon_url ++ x) an); auto.
    unfold set_link. apply create_ok; auto.
    unfold validate_optional, validate_HttpUrl. rewrite Hurl. reflexivity.
  - intros r H.
    destruct (emitted_link _ _ _ Hu H) as (id & Hget & Hl & _).
    simpl in Hget. rewrite Hid in Hget. unfold ok in Hget.
    assert (id = JStr x) by congruence. subst id. exact Hl.
Qed.

Lemma safe_id_link_round_trip_witness :
  is_http_url (taxon_url ++ "ABC") = true
  /\ normalize_item (without_id lion)
     = inr (inr (set_link (Some "https://www.catalogueoflife.org/data/taxon/None")
                   lion_entity))
  /\ normalize_item lion = inr (inr lion_entity)
  /\ NameInfo.link lion_entity = Some (taxon_url ++ "ABC").
Proof.
  destruct (safe_id_link_round_trip lion
              [("id", JStr "ABC");
               ("name", JObj [("scientificName", JStr "Panthera leo");
                              ("rank", JStr "species")])]
              "ABC" eq_refl eq_refl eq_refl eq_refl) as (Hurl & Hemit & Hlink).
  split; [exact Hurl |]. split; [reflexivity |].
  split.
  - exact (Hemit (set_link (Some "https://www.catalogueoflife.org/data/taxon/None")
                    lion_entity) eq_refl).
  - apply Hlink. reflexivity.
Defined.
